(** * Verification of the lab_5 web_app agent: response loop, screening,
      chat endpoint.

    The Python sources embedded here are
      - app/config.py            (Settings)
      - app/agent/weather.py     (the weather tool chain)
      - app/agent/model_armor.py (prompt and response screening)
      - app/agent/core.py        (handle_response, generate)
      - app/routers/chat.py      (the chat endpoint)
      - app/models.py            (ChatResponse)

    The external collaborators (the LLM backend, Google Maps, the NOAA
    API and the Model Armor service) are functions of their request,
    gathered in the record [Services]; every statement quantifies over
    them.  Python state (the history list, the generation configuration,
    the module-global Model Armor client) is threaded explicitly, with
    exceptions, in the monad [M].  Calls to [logger] are not modelled;
    instead every call that leaves the process is recorded in a trace. *)

From stdpp Require Import base option list strings gmap pretty.
From Stdlib Require Import Ascii ZArith QArith Lia.

Local Open Scope string_scope.
Local Open Scope list_scope.
Local Open Scope Z_scope.

(** ** Python values *)

(** The double quote character, for Python literals that contain one. *)
Definition dq : string := String "034"%char EmptyString.

(** [str(x)] of an optional string: [None] prints as the word None. *)
Definition py_str (o : option string) : string :=
  match o with
  | Some s => s
  | None => "None"
  end.

(** Truth value of an optional string: [None] and the empty string are
    false. *)
Definition truthy (o : option string) : bool :=
  match o with
  | Some s => negb (String.eqb s "")
  | None => false
  end.

(** ** Exceptions *)

Inductive ExnKind :=
  | ApiError
  | HTTPError
  | AttributeError
  | TypeError
  | HTTPException (status_code : Z)
  | OtherException.

(** Every kind above derives from Python's [Exception], so each
    [except Exception] clause of the sources catches all of them. *)
Record exn := Exn { exn_kind : ExnKind; exn_str : string }.

(** What an external call answers: a value, or an exception. *)
Inductive Reply (A : Type) :=
  | Returns (a : A)
  | Throws (e : exn).
Arguments Returns {A} a.
Arguments Throws {A} e.

(** ** app/config.py *)

Record Settings := {
  google_api_key : string;
  project_id : string;
  location : string;
  model_armor_location : string;
  model_name : string;
  model_armor_template_id : string;
  model_armor_response_template_id : string;
  rag_corpus : string;
  noaa_user_agent : string;
  api_timeout : Z;
  log_level : string
}.

(** ** The SDK's message types (google.genai.types), with the fields the
       agent reads or writes.  Every field is optional in the SDK.  The
       arguments of a function call are a dict; its values are taken to
       be strings, as the declared schema of the weather tool has them.
       The payload of a function response is a dict whose values may be
       [None]. *)

Record FunctionCall := {
  fc_id : option string;
  fc_args : option (gmap string string);
  fc_name : option string
}.

Record FunctionResponse := {
  fr_id : option string;
  fr_name : option string;
  fr_response : option (gmap string (option string))
}.

(** A part carries at most a text, a function call, a function response;
    [thought] and [thought_signature] stand for the further fields a raw
    part of the backend may carry. *)
Record Part := {
  text : option string;
  function_call : option FunctionCall;
  function_response : option FunctionResponse;
  thought : option bool;
  thought_signature : option string
}.

Record Content := {
  role : option string;
  parts : option (list Part)
}.

Record Candidate := {
  content : option Content
}.

(** [response_text] is the SDK's derived [text] attribute, which the
    agent only reads. *)
Record GenerateContentResponse := {
  candidates : option (list Candidate);
  response_text : option string
}.

Record PropertySchema := {
  property_type : string;
  property_description : string
}.

Record Schema := {
  schema_type : string;
  schema_properties : list (string * PropertySchema);
  schema_required : list string
}.

Record FunctionDeclaration := {
  fd_name : string;
  fd_description : string;
  fd_parameters : Schema
}.

Inductive Tool :=
  | RetrievalTool (vertex_rag_corpus : string)
  | FunctionTool (function_declarations : list FunctionDeclaration).

Record SafetySetting := {
  category : string;
  threshold : string
}.

Record GenerateContentConfig := {
  temperature : Z;
  top_p : Q;
  max_output_tokens : Z;
  safety_settings : list SafetySetting;
  system_instruction : option string;
  tools : list Tool
}.

(** [types.Part.from_text(text=t)] *)
Definition Part_from_text (t : string) : Part :=
  {| text := Some t; function_call := None; function_response := None;
     thought := None; thought_signature := None |}.

(** [types.Part(function_call=fc)] *)
Definition Part_of_function_call (fc : FunctionCall) : Part :=
  {| text := None; function_call := Some fc; function_response := None;
     thought := None; thought_signature := None |}.

(** [types.Part(function_response=fr)] *)
Definition Part_of_function_response (fr : FunctionResponse) : Part :=
  {| text := None; function_call := None; function_response := Some fr;
     thought := None; thought_signature := None |}.

(** ** The external services *)

Record LatLng := { lat : Q; lng : Q }.

Record Period := {
  period_name : string;
  period_temperature : Z;
  period_temperatureUnit : string;
  period_windSpeed : string;
  period_windDirection : string;
  period_detailedForecast : string
}.

Inductive FilterMatchState :=
  | FILTER_MATCH_STATE_UNSPECIFIED
  | NO_MATCH_FOUND
  | MATCH_FOUND.

Record Services := {
  (** [client.models.generate_content(model, contents, config)] *)
  generate_content :
    string -> list Content -> GenerateContentConfig -> Reply GenerateContentResponse;
  (** [googlemaps.Client(key).geocode(address)], reduced to the
      [geometry.location] of each result *)
  gmaps_geocode : string -> string -> Reply (list LatLng);
  (** GET api.weather.gov/points/lat,lng with the given User-Agent,
      reduced to [cwa], [gridX], [gridY] of its properties *)
  noaa_points : LatLng -> string -> Reply (string * Z * Z);
  (** GET api.weather.gov/gridpoints/wfo/x,y/forecast, reduced to the
      periods of its properties *)
  noaa_forecast : string -> Z -> Z -> string -> Reply (list Period);
  (** [client.sanitize_user_prompt] at an endpoint, for a template
      resource name and a text, reduced to the filter match state *)
  sanitize_user_prompt : string -> string -> string -> Reply FilterMatchState;
  (** [client.sanitize_model_response], likewise *)
  sanitize_model_response : string -> string -> string -> Reply FilterMatchState
}.

(** ** Program state and trace *)

Inductive Event :=
  | EvGenerateContent (model : string) (contents : list Content)
      (config : GenerateContentConfig)
  | EvWeatherTool (city state : option string)
  | EvGeocode (address : string)
  | EvNoaaPoints (coordinates : LatLng)
  | EvNoaaForecast (wfo : string) (grid_x grid_y : Z)
  | EvSanitizeUserPrompt (endpoint name prompt : string)
  | EvSanitizeModelResponse (endpoint name model_response : string).

(** The client of model_armor.py, identified by its endpoint. *)
Record ModelArmorClient := { api_endpoint : string }.

(** [st_contents] and [st_config] are the two mutable objects that
    [generate] creates and hands by reference to [handle_response];
    [st_model_armor_client] is the module global [_model_armor_client];
    [st_trace] lists the external calls made so far, oldest first. *)
Record State := {
  st_contents : list Content;
  st_config : GenerateContentConfig;
  st_model_armor_client : option ModelArmorClient;
  st_trace : list Event
}.

(** ** The monad: state, exceptions, and a bound on recursion *)

Inductive Outcome (A : Type) :=
  | Ok (a : A)
  | Raise (e : exn)
  | OutOfFuel.
Arguments Ok {A} a.
Arguments Raise {A} e.
Arguments OutOfFuel {A}.

Definition M (A : Type) : Type := State -> Outcome A * State.

Definition ret {A} (a : A) : M A := fun st => (Ok a, st).

Definition bind {A B} (m : M A) (k : A -> M B) : M B :=
  fun st =>
    match m st with
    | (Ok a, st') => k a st'
    | (Raise e, st') => (Raise e, st')
    | (OutOfFuel, st') => (OutOfFuel, st')
    end.

Definition raise {A} (e : exn) : M A := fun st => (Raise e, st).

Definition out_of_fuel {A} : M A := fun st => (OutOfFuel, st).

(** [try: body except Exception as e: handler e].  What the body did to
    the state before it raised stays done. *)
Definition try_except {A} (body : M A) (handler : exn -> M A) : M A :=
  fun st =>
    match body st with
    | (Raise e, st') => handler e st'
    | r => r
    end.

Notation "'let*' x := m 'in' k" := (bind m (fun x => k))
  (at level 10, x name, m at level 200, k at level 200).

Definition get_state : M State := fun st => (Ok st, st).

Definition emit (ev : Event) : M unit :=
  fun st =>
    (Ok tt, {| st_contents := st_contents st;
               st_config := st_config st;
               st_model_armor_client := st_model_armor_client st;
               st_trace := st_trace st ++ [ev] |}).

(** An external call: recorded in the trace, then answered. *)
Definition external {A} (ev : Event) (r : Reply A) : M A :=
  let* _ := emit ev in
  match r with
  | Returns a => ret a
  | Throws e => raise e
  end.

Definition set_contents (cs : list Content) : M unit :=
  fun st =>
    (Ok tt, {| st_contents := cs;
               st_config := st_config st;
               st_model_armor_client := st_model_armor_client st;
               st_trace := st_trace st |}).

Definition set_config (c : GenerateContentConfig) : M unit :=
  fun st =>
    (Ok tt, {| st_contents := st_contents st;
               st_config := c;
               st_model_armor_client := st_model_armor_client st;
               st_trace := st_trace st |}).

Definition set_model_armor_client (c : option ModelArmorClient) : M unit :=
  fun st =>
    (Ok tt, {| st_contents := st_contents st;
               st_config := st_config st;
               st_model_armor_client := c;
               st_trace := st_trace st |}).

(** [contents.append(turn)] *)
Definition contents_append (turn : Content) : M unit :=
  let* st := get_state in
  set_contents (st_contents st ++ [turn]).

(** [config.tools = ts] *)
Definition config_set_tools (ts : list Tool) : M unit :=
  let* st := get_state in
  let c := st_config st in
  set_config {| temperature := temperature c;
                top_p := top_p c;
                max_output_tokens := max_output_tokens c;
                safety_settings := safety_settings c;
                system_instruction := system_instruction c;
                tools := ts |}.

(** ** app/agent/weather.py *)

Section Weather.

Variable svc : Services.

Definition get_lat_long_from_city (city state : option string)
    (google_api_key : string) : M (option LatLng) :=
  try_except
    (let address := py_str city +:+ ", " +:+ py_str state +:+ ", USA" in
     let* geocode_result :=
       external (EvGeocode address) (gmaps_geocode svc google_api_key address) in
     match geocode_result with
     | location :: _ => ret (Some location)
     | [] => ret None
     end)
    (fun _ => ret None).

Definition get_grid_points (coordinates : LatLng) (user_agent : string)
    : M (option (string * Z * Z)) :=
  try_except
    (let* properties :=
       external (EvNoaaPoints coordinates) (noaa_points svc coordinates user_agent) in
     let '(wfo, grid_x, grid_y) := properties in
     ret (Some (wfo, grid_x, grid_y)))
    (fun _ => ret None).

(** The text built from the first period. *)
Definition forecast_text (today_forecast : Period) : string :=
  "
--- ☀️ Today's Forecast ---"
  +:+ "**Period:** " +:+ period_name today_forecast
  +:+ "**Temperature:** " +:+ pretty (period_temperature today_forecast)
  +:+ "°" +:+ period_temperatureUnit today_forecast
  +:+ "**Wind:** " +:+ period_windSpeed today_forecast
  +:+ " from " +:+ period_windDirection today_forecast
  +:+ "**Details:** " +:+ period_detailedForecast today_forecast.

Definition get_todays_forecast (wfo : string) (grid_x grid_y : Z)
    (user_agent : string) : M (option string) :=
  if String.eqb wfo "" || (grid_x =? 0) || (grid_y =? 0) then ret None
  else
    try_except
      (let* periods :=
         external (EvNoaaForecast wfo grid_x grid_y)
                  (noaa_forecast svc wfo grid_x grid_y user_agent) in
       match periods with
       | today_forecast :: _ => ret (Some (forecast_text today_forecast))
       | [] => ret None
       end)
      (fun _ => ret None).

Definition get_weather_from_city_state (city state : option string)
    (google_api_key noaa_user_agent : string) : M (option string) :=
  let* _ := emit (EvWeatherTool city state) in
  let* coordinates := get_lat_long_from_city city state google_api_key in
  match coordinates with
  | None => ret None
  | Some coordinates =>
      let* grid_data := get_grid_points coordinates noaa_user_agent in
      match grid_data with
      | None => ret None
      | Some (wfo, grid_x, grid_y) =>
          get_todays_forecast wfo grid_x grid_y noaa_user_agent
      end
  end.

End Weather.

(** ** app/agent/model_armor.py *)

Section ModelArmor.

Variable svc : Services.

Definition get_model_armor_client (model_armor_location : string)
    : M ModelArmorClient :=
  let* st := get_state in
  match st_model_armor_client st with
  | None =>
      let model_armor_endpoint :=
        "modelarmor." +:+ model_armor_location +:+ ".rep.googleapis.com" in
      let client := {| api_endpoint := model_armor_endpoint |} in
      let* _ := set_model_armor_client (Some client) in
      ret client
  | Some client => ret client
  end.

(** [client.template_path(project, location, template)] *)
Definition template_path (project loc template : string) : string :=
  "projects/" +:+ project +:+ "/locations/" +:+ loc
  +:+ "/templates/" +:+ template.

(** [state == modelarmor_v1.FilterMatchState.MATCH_FOUND] *)
Definition is_match_found (s : FilterMatchState) : bool :=
  match s with
  | MATCH_FOUND => true
  | _ => false
  end.

Definition check_prompt_with_model_armor (prompt project_id
    model_armor_location template_id : string) : M bool :=
  let* client := get_model_armor_client model_armor_location in
  let template_name := template_path project_id model_armor_location template_id in
  let* filter_match_state :=
    external (EvSanitizeUserPrompt (api_endpoint client) template_name prompt)
             (sanitize_user_prompt svc (api_endpoint client) template_name prompt) in
  let match_found := is_match_found filter_match_state in
  if match_found then ret false else ret true.

Definition check_response_with_model_armor (model_response project_id
    model_armor_location template_id : string) : M bool :=
  let* client := get_model_armor_client model_armor_location in
  let template_name := template_path project_id model_armor_location template_id in
  let* filter_match_state :=
    external (EvSanitizeModelResponse (api_endpoint client) template_name model_response)
             (sanitize_model_response svc (api_endpoint client) template_name model_response) in
  let match_found := is_match_found filter_match_state in
  if match_found then ret false else ret true.

End ModelArmor.

(** ** app/agent/core.py *)

Definition weather_tool_name : string := "get_weather_from_city_state".

(** Lines 41-51 of [handle_response]: the first part of the first
    candidate that carries a function call, if the candidates, the
    content and the parts are all there. *)
Definition find_function_call_part (response : GenerateContentResponse)
    : option Part :=
  match candidates response with
  | Some (candidate :: _) =>
      match content candidate with
      | Some c =>
          match parts c with
          | Some ps => List.find (fun part => bool_decide (is_Some (function_call part))) ps
          | None => None
          end
      | None => None
      end
  | _ => None
  end.

(** The model turn that [handle_response] puts back in the history. *)
Definition sanitized_model_turn (function_obj : FunctionCall)
    (call_id : option string) : Content :=
  let clean_function_call :=
    {| fc_id := call_id;
       fc_args := fc_args function_obj;
       fc_name := fc_name function_obj |} in
  {| role := Some "model";
     parts := Some [Part_of_function_call clean_function_call] |}.

(** The tool turn, around the result part. *)
Definition tool_turn (result_part : Part) : Content :=
  {| role := Some "tool"; parts := Some [result_part] |}.

Section Core.

Variable svc : Services.
Variable settings : Settings.

(** Lines 62-86: the result part, [None] when the tool is not the
    weather tool or when running it raised. *)
Definition tool_result_part (function_obj : FunctionCall)
    (call_id : option string) : M (option Part) :=
  if bool_decide (fc_name function_obj = Some weather_tool_name) then
    try_except
      (let* args :=
         match fc_args function_obj with
         | Some args => ret args
         | None => raise (Exn AttributeError "'NoneType' object has no attribute 'get'")
         end in
       let city := args !! "city" in
       let state := args !! "state" in
       let* result_output :=
         get_weather_from_city_state svc city state
           (google_api_key settings) (noaa_user_agent settings) in
       ret (Some (Part_of_function_response
                    {| fr_id := call_id;
                       fr_name := Some weather_tool_name;
                       fr_response := Some {[ "content" := result_output ]} |})))
      (fun _ => ret None)
  else ret None.

(** [client.models.generate_content(model=model, contents=contents,
    config=config)] on the current history and configuration. *)
Definition call_generate_content (model : string) : M GenerateContentResponse :=
  let* st := get_state in
  external (EvGenerateContent model (st_contents st) (st_config st))
           (generate_content svc model (st_contents st) (st_config st)).

(** [fuel] bounds the depth of the recursion, which the source leaves to
    the backend: a run that would recurse deeper ends in [OutOfFuel],
    which no [except] clause catches.  [contents] and [config] are the
    objects in the state. *)
Fixpoint handle_response (fuel : nat) (response : GenerateContentResponse)
    (model : string) : M (option string) :=
  match find_function_call_part response with
  | Some function_call_part =>
      let* function_obj :=
        match function_call function_call_part with
        | Some function_obj => ret function_obj
        | None => raise (Exn AttributeError "'NoneType' object has no attribute 'name'")
        end in
      let call_id := fc_id function_obj in
      let* result_part := tool_result_part function_obj call_id in
      match result_part with
      | None => ret None
      | Some result_part =>
          let* _ := contents_append (sanitized_model_turn function_obj call_id) in
          let* _ := contents_append (tool_turn result_part) in
          try_except
            (let* st := get_state in
             let* _ := config_set_tools (drop 1 (tools (st_config st))) in
             let* next_response := call_generate_content model in
             match fuel with
             | O => out_of_fuel
             | S fuel' => handle_response fuel' next_response model
             end)
            (fun _ => ret None)
      end
  | None =>
      if truthy (response_text response) then ret (response_text response)
      else ret None
  end.

Definition system_instructions : string :=
  "You are a helpful AI assistant with access to weather information and knowledge retrieval capabilities for the Alaska Department of Snow.
  When users ask about weather, use the get_weather_from_city_state function to get accurate, current forecasts.
  For other questions, you can search through your knowledge base to provide helpful information.

  RULES:
  1. if a user asks about anything other than a weather forecast in a City and State, snow, or Alaska Department of Snow, respond with "
  +:+ dq +:+ "I'm sorry I cannot help you with that." +:+ dq +:+ "
  2. Limit your final response to 240 characters or less.
  3. Add the relevant hash tag in ALL CAPITAL LETTERS, #FORECAST, #ALASKA_DS, #USEANOTHERCHATBOT

  User Query:
  ".

Definition weather_tool_declaration : FunctionDeclaration :=
  {| fd_name := "get_weather_from_city_state";
     fd_description :=
       "Retrieves the current weather forecast for a given city and state.

  This function first converts the city and state names into geographic
  coordinates (latitude and longitude). It then uses these coordinates
  to determine the National Weather Service (NWS) forecast office (WFO)
  and grid points. Finally, it fetches and returns today's forecast.

  Args:
      city: The name of the city (e.g., " +:+ dq +:+ "Denver" +:+ dq +:+ ")
      state: The two-letter state abbreviation (e.g., " +:+ dq +:+ "CO" +:+ dq +:+ ")

  Returns:
      Formatted forecast string or None if any step fails
  ";
     fd_parameters :=
       {| schema_type := "OBJECT";
          schema_properties :=
            [("city",
              {| property_type := "STRING";
                 property_description := "The name of the city, e.g., 'Denver'." |});
             ("state",
              {| property_type := "STRING";
                 property_description :=
                   "The two-letter abbreviation for the state, e.g., 'CO'." |})];
          schema_required := ["city"; "state"] |} |}.

Definition x_weather_tool : Tool := FunctionTool [weather_tool_declaration].

Definition retrieval_tool : Tool := RetrievalTool (rag_corpus settings).

Definition all_tools : list Tool := [retrieval_tool; x_weather_tool].

Definition generate_content_config : GenerateContentConfig :=
  {| temperature := 1;
     top_p := (95 # 100)%Q;
     max_output_tokens := 65535;
     safety_settings :=
       [ {| category := "HARM_CATEGORY_HATE_SPEECH"; threshold := "OFF" |};
         {| category := "HARM_CATEGORY_DANGEROUS_CONTENT"; threshold := "OFF" |};
         {| category := "HARM_CATEGORY_SEXUALLY_EXPLICIT"; threshold := "OFF" |};
         {| category := "HARM_CATEGORY_HARASSMENT"; threshold := "OFF" |} ];
     system_instruction := None;
     tools := all_tools |}.

(** The user turn that opens the history. *)
Definition user_turn (user_query : string) : Content :=
  {| role := Some "user"; parts := Some [Part_from_text user_query] |}.

(** Building the SDK client ([genai.Client(vertexai=True)]) calls no
    service and is left out; [contents] and the configuration are the
    fresh objects of this request. *)
Definition generate (fuel : nat) (user_query : string) : M (option string) :=
  let model := model_name settings in
  let enhanced_user_query := system_instructions +:+ user_query in
  let* _ := set_contents [user_turn user_query] in
  let* _ := set_config generate_content_config in
  let* prompt_ok :=
    check_prompt_with_model_armor svc user_query (project_id settings)
      (model_armor_location settings) (model_armor_template_id settings) in
  if negb prompt_ok then ret None
  else
    try_except
      (let* initial_response := call_generate_content model in
       let* final_response := handle_response fuel initial_response model in
       match final_response with
       | None => ret None
       | Some final_text =>
           if String.eqb final_text "" then ret None
           else
             let* is_response_safe :=
               check_response_with_model_armor svc final_text
                 (project_id settings) (model_armor_location settings)
                 (model_armor_response_template_id settings) in
             if is_response_safe then ret final_response else ret None
       end)
      (fun _ => ret None).

(** ** app/models.py and app/routers/chat.py *)

Record ChatRequest := { message : string }.

Record ChatResponse := {
  response : option string;
  blocked : bool;
  blocked_reason : option string
}.

Definition chat (fuel : nat) (request : ChatRequest) : M ChatResponse :=
  try_except
    (let* result := generate fuel (message request) in
     match result with
     | None =>
         ret {| response := None;
                blocked := true;
                blocked_reason :=
                  Some "Response was blocked by Model Armor for safety reasons" |}
     | Some _ =>
         ret {| response := result; blocked := false; blocked_reason := None |}
     end)
    (fun e =>
       raise (Exn (HTTPException 500)
                  ("An error occurred while processing your request: " +:+ exn_str e))).

End Core.

(** * Vocabulary of the properties *)

(** ** Traces *)

(** The state after further external calls. *)
Definition with_trace (st : State) (evs : list Event) : State :=
  {| st_contents := st_contents st;
     st_config := st_config st;
     st_model_armor_client := st_model_armor_client st;
     st_trace := st_trace st ++ evs |}.

(** The requests made to the LLM backend, in order. *)
Fixpoint backend_calls (evs : list Event)
    : list (string * list Content * GenerateContentConfig) :=
  match evs with
  | [] => []
  | EvGenerateContent model cs cfg :: evs' => (model, cs, cfg) :: backend_calls evs'
  | _ :: evs' => backend_calls evs'
  end.

(** The invocations of the weather tool, in order. *)
Fixpoint tool_calls (evs : list Event) : list (option string * option string) :=
  match evs with
  | [] => []
  | EvWeatherTool city state :: evs' => (city, state) :: tool_calls evs'
  | _ :: evs' => tool_calls evs'
  end.

(** The events a run from [st] to [st'] added to the trace. *)
Definition new_events (st st' : State) : list Event :=
  drop (length (st_trace st)) (st_trace st').

(** ** One round of the response loop *)

(** The result part of a call to the weather tool. *)
Definition weather_result_part (call_id : option string)
    (result_output : option string) : Part :=
  Part_of_function_response
    {| fr_id := call_id;
       fr_name := Some weather_tool_name;
       fr_response := Some {[ "content" := result_output ]} |}.

(** The state in which the backend is called again: both turns
    appended, the first tool declaration dropped. *)
Definition next_round_state (st : State) (function_obj : FunctionCall)
    (result_part : Part) : State :=
  {| st_contents :=
       (st_contents st ++ [sanitized_model_turn function_obj (fc_id function_obj)])
       ++ [tool_turn result_part];
     st_config :=
       {| temperature := temperature (st_config st);
          top_p := top_p (st_config st);
          max_output_tokens := max_output_tokens (st_config st);
          safety_settings := safety_settings (st_config st);
          system_instruction := system_instruction (st_config st);
          tools := drop 1 (tools (st_config st)) |};
     st_model_armor_client := st_model_armor_client st;
     st_trace := st_trace st |}.

(** The request of that call, as it enters the trace. *)
Definition next_round_call (model : string) (st2 : State) : Event :=
  EvGenerateContent model (st_contents st2) (st_config st2).

(** The tool invocations of one round of the loop: at most one, that of
    the function call acted on. *)
Definition round_tool_calls (function_obj : FunctionCall)
    : list (option string * option string) :=
  match fc_name function_obj, fc_args function_obj with
  | Some name, Some args =>
      if bool_decide (name = weather_tool_name)
      then [(args !! "city", args !! "state")]
      else []
  | _, _ => []
  end.

(** The tool executor fails on a function call: the tool block yields
    no result part (it raised, or the tool is not registered), or the
    weather tool ran and returned its failure signal [None]. *)
Definition tool_executor_fails (svc : Services) (settings : Settings)
    (function_obj : FunctionCall) (st : State) : Prop :=
  fst (tool_result_part svc settings function_obj (fc_id function_obj) st) = Ok None
  \/ exists args,
       fc_name function_obj = Some weather_tool_name
       /\ fc_args function_obj = Some args
       /\ fst (get_weather_from_city_state svc (args !! "city") (args !! "state")
                (google_api_key settings) (noaa_user_agent settings) st)
          = Ok None.

(** ** What a run of the response loop preserves *)

(** A turn none of whose parts is a text part. *)
Definition no_text_turn (turn : Content) : Prop :=
  match parts turn with
  | Some ps => Forall (fun part => text part = None) ps
  | None => True
  end.

(** What a run of [handle_response] for [model] from [st], ending in
    [res], has done: it appended turns without text to the history and
    events to the trace, left the Model Armor client alone, did not
    raise, did not return the empty string, and its [k]-th call of the
    backend (from 0) carried the history so far and the configuration
    less its first [k+1] tool declarations. *)
Definition loop_post (model : string) (st : State)
    (res : Outcome (option string) * State) : Prop :=
  exists turns evs,
    st_contents (snd res) = st_contents st ++ turns
    /\ Forall no_text_turn turns
    /\ st_trace (snd res) = st_trace st ++ evs
    /\ st_model_armor_client (snd res) = st_model_armor_client st
    /\ (forall e, fst res <> Raise e)
    /\ fst res <> Ok (Some "")
    /\ (forall (k : nat) m cs cfg,
          backend_calls evs !! k = Some (m, cs, cfg) ->
          m = model
          /\ tools cfg = drop (S k) (tools (st_config st))
          /\ system_instruction cfg = system_instruction (st_config st)
          /\ exists extra, cs = st_contents st ++ extra /\ Forall no_text_turn extra).

(** ** Screening *)

(** The endpoint of the Model Armor client in use: the one created
    first in this process, whatever location is asked for later. *)
Definition model_armor_endpoint (st : State) (model_armor_location : string)
    : string :=
  match st_model_armor_client st with
  | Some client => api_endpoint client
  | None => "modelarmor." +:+ model_armor_location +:+ ".rep.googleapis.com"
  end.

(** The state once the client exists. *)
Definition with_client (st : State) (model_armor_location : string) : State :=
  match st_model_armor_client st with
  | Some _ => st
  | None =>
      {| st_contents := st_contents st;
         st_config := st_config st;
         st_model_armor_client :=
           Some {| api_endpoint :=
                     "modelarmor." +:+ model_armor_location +:+ ".rep.googleapis.com" |};
         st_trace := st_trace st |}
  end.

(** ** What a run of [generate] does *)

Section RequestVocabulary.

Variable svc : Services.
Variable settings : Settings.

(** The state in which a request starts: a fresh history and a fresh
    configuration. *)
Definition request_state (st : State) (user_query : string) : State :=
  {| st_contents := [user_turn user_query];
     st_config := generate_content_config settings;
     st_model_armor_client := st_model_armor_client st;
     st_trace := st_trace st |}.

(** The screening of the prompt, as [generate] runs it. *)
Definition screen_prompt (user_query : string) : M bool :=
  check_prompt_with_model_armor svc user_query (project_id settings)
    (model_armor_location settings) (model_armor_template_id settings).

(** What a run of [generate] on [user_query] from [st], ending in
    [res], has done: it added events to the trace, did not return the
    empty string, and its [k]-th call of the backend (from 0) carried a
    history that opens with the user's turn, followed by turns without
    text (by none in the first call), with no system instruction and
    the tool declarations less the first [k]; and when the prompt
    passes the screening the first call is made. *)
Definition generate_post (user_query : string) (st : State)
    (res : Outcome (option string) * State) : Prop :=
  exists evs,
    st_trace (snd res) = st_trace st ++ evs
    /\ fst res <> Ok (Some "")
    /\ (fst (screen_prompt user_query st) = Ok true ->
        backend_calls evs !! 0%nat =
        Some (model_name settings, [user_turn user_query],
              generate_content_config settings))
    /\ (forall (k : nat) m cs cfg,
          backend_calls evs !! k = Some (m, cs, cfg) ->
          m = model_name settings
          /\ tools cfg = drop k (all_tools settings)
          /\ system_instruction cfg = None
          /\ exists extra,
               cs = user_turn user_query :: extra
               /\ Forall no_text_turn extra
               /\ (k = 0%nat -> extra = [])).

End RequestVocabulary.

(** ** Responses *)

(** The parts of the first candidate, none when a level is missing. *)
Definition first_candidate_parts (response : GenerateContentResponse)
    : list Part :=
  match candidates response with
  | Some (candidate :: _) =>
      match content candidate with
      | Some c => default [] (parts c)
      | None => []
      end
  | _ => []
  end.

(** A response of one candidate with the given parts and text. *)
Definition response_of_parts (ps : list Part) (t : option string)
    : GenerateContentResponse :=
  {| candidates := Some [ {| content := Some {| role := Some "model"; parts := Some ps |} |} ];
     response_text := t |}.

(** A response that is only text. *)
Definition text_response (t : string) : GenerateContentResponse :=
  response_of_parts [Part_from_text t] (Some t).

Definition blocked_response : ChatResponse :=
  {| response := None;
     blocked := true;
     blocked_reason :=
       Some "Response was blocked by Model Armor for safety reasons" |}.

(** ** Scenarios *)

Definition sample_settings : Settings :=
  {| google_api_key := "maps-key";
     project_id := "snow-project";
     location := "us-central1";
     model_armor_location := "us";
     model_name := "gemini-2.5-pro";
     model_armor_template_id := "lab-five-query-template";
     model_armor_response_template_id := "ma-response-filter";
     rag_corpus := "projects/snow-project/locations/us-central1/ragCorpora/1";
     noaa_user_agent := "WeatherChatbot/1.0";
     api_timeout := 60;
     log_level := "INFO" |}.

(** A process that has served no request yet. *)
Definition idle_state : State :=
  {| st_contents := [];
     st_config := generate_content_config sample_settings;
     st_model_armor_client := None;
     st_trace := [] |}.

Definition denver_query : string := "What is the weather in Denver, CO?".

(** The state of that request when the loop starts. *)
Definition denver_state : State :=
  request_state sample_settings idle_state denver_query.

Definition denver_call : FunctionCall :=
  {| fc_id := Some "abc";
     fc_args := Some {[ "city" := "Denver"; "state" := "CO" ]};
     fc_name := Some weather_tool_name |}.

(** The raw part of the backend, with fields beyond the function call. *)
Definition raw_denver_part : Part :=
  {| text := None;
     function_call := Some denver_call;
     function_response := None;
     thought := Some true;
     thought_signature := Some "c2lnbmF0dXJl" |}.

Definition other_call : FunctionCall :=
  {| fc_id := Some "xyz";
     fc_args := Some {[ "query" := "snow plough schedule" ]};
     fc_name := Some "search_knowledge_base" |}.

Definition clear_skies : string :=
  "Clear skies #FORECAST #ALASKA_DS #USEANOTHERCHATBOT".

Definition denver_period : Period :=
  {| period_name := "Today";
     period_temperature := 72;
     period_temperatureUnit := "F";
     period_windSpeed := "5 mph";
     period_windDirection := "SW";
     period_detailedForecast := "Clear" |}.

(** The configuration of that request after one tool round. *)
Definition second_round_config : GenerateContentConfig :=
  {| temperature := 1;
     top_p := (95 # 100)%Q;
     max_output_tokens := 65535;
     safety_settings := safety_settings (generate_content_config sample_settings);
     system_instruction := None;
     tools := [x_weather_tool] |}.

(** A response with a text part and two function calls. *)
Definition two_calls_response : GenerateContentResponse :=
  response_of_parts
    [Part_from_text "Let me check."; raw_denver_part;
     Part_of_function_call other_call] None.

(** A response that asks for a tool that is not registered. *)
Definition other_call_response : GenerateContentResponse :=
  response_of_parts [Part_of_function_call other_call] None.

(** A backend that asks for the Denver forecast on the opening call and
    answers in text once the history has grown. *)
Definition tool_then_text_backend (model : string) (cs : list Content)
    (cfg : GenerateContentConfig) : Reply GenerateContentResponse :=
  match cs with
  | [_] => Returns (response_of_parts [raw_denver_part] None)
  | _ => Returns (response_of_parts [Part_from_text clear_skies] (Some clear_skies))
  end.

(** A backend that asks for a tool that is not registered. *)
Definition unknown_tool_backend (model : string) (cs : list Content)
    (cfg : GenerateContentConfig) : Reply GenerateContentResponse :=
  Returns other_call_response.

(** A backend that is out of quota. *)
Definition failing_backend (model : string) (cs : list Content)
    (cfg : GenerateContentConfig) : Reply GenerateContentResponse :=
  Throws (Exn OtherException "429 RESOURCE_EXHAUSTED").

(** A backend that answers with neither a function call nor a text. *)
Definition silent_backend (model : string) (cs : list Content)
    (cfg : GenerateContentConfig) : Reply GenerateContentResponse :=
  Returns {| candidates := Some []; response_text := None |}.

(** Scenario C of the specification: every service answers. *)
Definition scenario_C : Services :=
  {| generate_content := tool_then_text_backend;
     gmaps_geocode := fun _ _ =>
       Returns [ {| lat := (397392 # 10000)%Q; lng := (-1049903 # 10000)%Q |} ];
     noaa_points := fun _ _ => Returns ("BOU", 62, 60);
     noaa_forecast := fun _ _ _ _ => Returns [denver_period];
     sanitize_user_prompt := fun _ _ _ => Returns NO_MATCH_FOUND;
     sanitize_model_response := fun _ _ _ => Returns NO_MATCH_FOUND |}.

(** Scenario D: geocoding finds nothing. *)
Definition scenario_D : Services :=
  {| generate_content := tool_then_text_backend;
     gmaps_geocode := fun _ _ => Returns [];
     noaa_points := fun _ _ => Returns ("BOU", 62, 60);
     noaa_forecast := fun _ _ _ _ => Returns [denver_period];
     sanitize_user_prompt := fun _ _ _ => Returns NO_MATCH_FOUND;
     sanitize_model_response := fun _ _ _ => Returns NO_MATCH_FOUND |}.

(** Scenario A: the prompt is blocked. *)
Definition scenario_A : Services :=
  {| generate_content := tool_then_text_backend;
     gmaps_geocode := fun _ _ => Returns [];
     noaa_points := fun _ _ => Returns ("BOU", 62, 60);
     noaa_forecast := fun _ _ _ _ => Returns [denver_period];
     sanitize_user_prompt := fun _ _ _ => Returns MATCH_FOUND;
     sanitize_model_response := fun _ _ _ => Returns NO_MATCH_FOUND |}.

(** Scenario E: the answer is blocked. *)
Definition scenario_E : Services :=
  {| generate_content := tool_then_text_backend;
     gmaps_geocode := gmaps_geocode scenario_C;
     noaa_points := noaa_points scenario_C;
     noaa_forecast := noaa_forecast scenario_C;
     sanitize_user_prompt := fun _ _ _ => Returns NO_MATCH_FOUND;
     sanitize_model_response := fun _ _ _ => Returns MATCH_FOUND |}.

(** The services of scenario C with another backend. *)
Definition scenario_with_backend
    (backend : string -> list Content -> GenerateContentConfig ->
               Reply GenerateContentResponse) : Services :=
  {| generate_content := backend;
     gmaps_geocode := gmaps_geocode scenario_C;
     noaa_points := noaa_points scenario_C;
     noaa_forecast := noaa_forecast scenario_C;
     sanitize_user_prompt := sanitize_user_prompt scenario_C;
     sanitize_model_response := sanitize_model_response scenario_C |}.

Definition denver_request : ChatRequest := {| message := denver_query |}.

(** ** The weather chain *)

(** The address that [get_lat_long_from_city] geocodes. *)
Definition geocode_address (city state : option string) : string :=
  py_str city +:+ ", " +:+ py_str state +:+ ", USA".

(** The grid data that [get_todays_forecast] refuses: an empty office,
    or a zero coordinate. *)
Definition invalid_grid (wfo : string) (grid_x grid_y : Z) : Prop :=
  wfo = "" \/ grid_x = 0 \/ grid_y = 0.

(** Services whose grid lookup answers with a zero x coordinate. *)
Definition scenario_zero_grid : Services :=
  {| generate_content := tool_then_text_backend;
     gmaps_geocode := gmaps_geocode scenario_C;
     noaa_points := fun _ _ => Returns ("AFG", 0, 117);
     noaa_forecast := noaa_forecast scenario_C;
     sanitize_user_prompt := sanitize_user_prompt scenario_C;
     sanitize_model_response := sanitize_model_response scenario_C |}.

(** The place that scenario C geocodes Denver to. *)
Definition denver_location : LatLng :=
  {| lat := (397392 # 10000)%Q; lng := (-1049903 # 10000)%Q |}.

(** ** The shape of a run of the response loop *)

(** The requests of the weather chain to Google Maps and NOAA. *)
Definition is_weather_request (ev : Event) : bool :=
  match ev with
  | EvGeocode _ | EvNoaaPoints _ | EvNoaaForecast _ _ _ => true
  | _ => false
  end.

(** The calls to Model Armor. *)
Definition is_screening_call (ev : Event) : bool :=
  match ev with
  | EvSanitizeUserPrompt _ _ _ | EvSanitizeModelResponse _ _ _ => true
  | _ => false
  end.

(** Turns that come in pairs: one of role model, then one of role
    tool. *)
Fixpoint model_tool_turns (turns : list Content) : Prop :=
  match turns with
  | [] => True
  | model_turn :: tool_turn :: turns' =>
      role model_turn = Some "model" /\ role tool_turn = Some "tool"
      /\ model_tool_turns turns'
  | [_] => False
  end.

(** The configuration [c] with another list of tools. *)
Definition with_tools (c : GenerateContentConfig) (ts : list Tool)
    : GenerateContentConfig :=
  {| temperature := temperature c;
     top_p := top_p c;
     max_output_tokens := max_output_tokens c;
     safety_settings := safety_settings c;
     system_instruction := system_instruction c;
     tools := ts |}.

(** What a run of [handle_response] from [st], ending in [res], looks
    like: the history grew by pairs of a model and a tool turn, two
    turns for each call of the backend; the weather tool ran once for
    each call of the backend; Model Armor was not called; the
    configuration changed in its tools only, which lost one entry for
    each call; and the [k]-th call (from 0) carried that configuration
    less [k+1] tools and a history of [2(k+1)] more turns. *)
Definition loop_shape (st : State) (res : Outcome (option string) * State)
    : Prop :=
  exists turns evs,
    st_contents (snd res) = st_contents st ++ turns
    /\ st_trace (snd res) = st_trace st ++ evs
    /\ model_tool_turns turns
    /\ length turns = (2 * length (backend_calls evs))%nat
    /\ length (tool_calls evs) = length (backend_calls evs)
    /\ Forall (fun ev => is_screening_call ev = false) evs
    /\ st_config (snd res) =
       with_tools (st_config st)
         (drop (length (backend_calls evs)) (tools (st_config st)))
    /\ (forall (k : nat) m cs cfg,
          backend_calls evs !! k = Some (m, cs, cfg) ->
          cfg = with_tools (st_config st) (drop (S k) (tools (st_config st)))
          /\ length cs = (length (st_contents st) + 2 * S k)%nat).

(** A call of the weather tool that names the state only. *)
Definition stateless_call : FunctionCall :=
  {| fc_id := Some "abc";
     fc_args := Some {[ "state" := "CO" ]};
     fc_name := Some weather_tool_name |}.

(** ** The screenings of [generate] *)

(** The template resource against which [generate] screens the
    prompt. *)
Definition prompt_template (settings : Settings) : string :=
  template_path (project_id settings) (model_armor_location settings)
    (model_armor_template_id settings).

(** The template resource against which [generate] screens the
    answer. *)
Definition response_template (settings : Settings) : string :=
  template_path (project_id settings) (model_armor_location settings)
    (model_armor_response_template_id settings).

(** The screening call of [generate] for the prompt, made from [st]. *)
Definition prompt_screening (settings : Settings) (st : State)
    (user_query : string) : Event :=
  EvSanitizeUserPrompt
    (model_armor_endpoint st (model_armor_location settings))
    (prompt_template settings) user_query.

(** The screening call of [generate] for an answer, in a request that
    started from [st]. *)
Definition response_screening (settings : Settings) (st : State)
    (final_text : string) : Event :=
  EvSanitizeModelResponse
    (model_armor_endpoint st (model_armor_location settings))
    (response_template settings) final_text.

(** The opening call of [generate] to the backend. *)
Definition initial_call (settings : Settings) (user_query : string) : Event :=
  EvGenerateContent (model_name settings) [user_turn user_query]
    (generate_content_config settings).

(** A backend that answers in text at once. *)
Definition text_backend (t : string) (model : string) (cs : list Content)
    (cfg : GenerateContentConfig) : Reply GenerateContentResponse :=
  Returns (text_response t).

(** Scenario B of the specification: a plain text answer. *)
Definition scenario_B : Services :=
  scenario_with_backend (text_backend "Sunny, 72F").

(** Services whose prompt screening is unreachable. *)
Definition scenario_prompt_screening_down : Services :=
  {| generate_content := tool_then_text_backend;
     gmaps_geocode := gmaps_geocode scenario_C;
     noaa_points := noaa_points scenario_C;
     noaa_forecast := noaa_forecast scenario_C;
     sanitize_user_prompt := fun _ _ _ =>
       Throws (Exn OtherException "503 Service Unavailable");
     sanitize_model_response := sanitize_model_response scenario_C |}.

(** The state in which [generate] hands over to the response loop:
    the client exists, the prompt has passed, the backend has answered
    the opening call. *)
Definition loop_start_state (settings : Settings) (st : State)
    (user_query : string) : State :=
  with_trace
    (with_client (request_state settings st user_query)
       (model_armor_location settings))
    [prompt_screening settings st user_query;
     initial_call settings user_query].

(** * Properties *)

(** ** Traces *)

Lemma backend_calls_app (a b : list Event) :
  backend_calls (a ++ b) = backend_calls a ++ backend_calls b.
Proof.
  induction a as [|ev a IH]; simpl; [reflexivity|].
  destruct ev; simpl; rewrite ?IH; reflexivity.
Qed.

Lemma tool_calls_app (a b : list Event) :
  tool_calls (a ++ b) = tool_calls a ++ tool_calls b.
Proof.
  induction a as [|ev a IH]; simpl; [reflexivity|].
  destruct ev; simpl; rewrite ?IH; reflexivity.
Qed.

Lemma with_trace_with_trace (st : State) (a b : list Event) :
  with_trace (with_trace st a) b = with_trace st (a ++ b).
Proof. unfold with_trace; simpl. by rewrite <- app_assoc. Qed.

Lemma emit_with_trace (ev : Event) (st : State) :
  emit ev st = (Ok tt, with_trace st [ev]).
Proof. reflexivity. Qed.

Lemma external_eq {A} (ev : Event) (r : Reply A) (st : State) :
  external ev r st =
  match r with
  | Returns a => (Ok a, with_trace st [ev])
  | Throws e => (Raise e, with_trace st [ev])
  end.
Proof. unfold external, bind; simpl. by destruct r. Qed.

Ltac unfold_monad :=
  unfold bind, ret, raise, try_except, out_of_fuel, get_state in *.

(** ** The weather tool always returns *)

Section WeatherFacts.

Variable svc : Services.

Lemma get_lat_long_from_city_returns city state key st :
  exists out,
    get_lat_long_from_city svc city state key st =
    (Ok out,
     with_trace st [EvGeocode (py_str city +:+ ", " +:+ py_str state +:+ ", USA")]).
Proof.
  unfold get_lat_long_from_city. unfold_monad. rewrite external_eq.
  destruct (gmaps_geocode svc key _) as [[|location rest]|e]; eauto.
Qed.

Lemma get_grid_points_returns coordinates ua st :
  exists out,
    get_grid_points svc coordinates ua st =
    (Ok out, with_trace st [EvNoaaPoints coordinates]).
Proof.
  unfold get_grid_points. unfold_monad. rewrite external_eq.
  destruct (noaa_points svc coordinates ua) as [[[wfo x] y]|e]; eauto.
Qed.

Lemma get_todays_forecast_returns wfo x y ua st :
  exists out evs,
    get_todays_forecast svc wfo x y ua st = (Ok out, with_trace st evs)
    /\ backend_calls evs = [] /\ tool_calls evs = [].
Proof.
  unfold get_todays_forecast.
  destruct (String.eqb wfo "" || (x =? 0) || (y =? 0)).
  - exists None, []. unfold ret, with_trace. rewrite app_nil_r.
    by destruct st.
  - unfold_monad. rewrite external_eq.
    destruct (noaa_forecast svc wfo x y ua) as [[|p rest]|e];
      eexists _, [_]; eauto.
Qed.

Lemma get_weather_from_city_state_returns city state key ua st :
  exists out evs,
    get_weather_from_city_state svc city state key ua st =
    (Ok out, with_trace st (EvWeatherTool city state :: evs))
    /\ backend_calls evs = [] /\ tool_calls evs = [].
Proof.
  unfold get_weather_from_city_state.
  unfold bind at 1. rewrite emit_with_trace.
  unfold bind at 1.
  destruct (get_lat_long_from_city_returns city state key
              (with_trace st [EvWeatherTool city state])) as [c ->].
  rewrite with_trace_with_trace.
  destruct c as [c|]; [|eexists None, [_]; eauto].
  unfold bind at 1.
  destruct (get_grid_points_returns c ua (with_trace st
              ([EvWeatherTool city state] ++ [EvGeocode
                 (py_str city +:+ ", " +:+ py_str state +:+ ", USA")]))) as [g ->].
  rewrite with_trace_with_trace.
  destruct g as [[[wfo x] y]|]; [|eexists None, [_; _]; eauto].
  destruct (get_todays_forecast_returns wfo x y ua (with_trace st
              (([EvWeatherTool city state] ++ [EvGeocode
                 (py_str city +:+ ", " +:+ py_str state +:+ ", USA")])
               ++ [EvNoaaPoints c]))) as (out & evs & -> & Hb & Ht).
  rewrite with_trace_with_trace.
  exists out, ([EvGeocode (py_str city +:+ ", " +:+ py_str state +:+ ", USA")]
               ++ [EvNoaaPoints c] ++ evs).
  split; [reflexivity|].
  rewrite !backend_calls_app, !tool_calls_app, Hb, Ht. auto.
Qed.

End WeatherFacts.

(** ** One round of the response loop *)

Section CoreFacts.

Variable svc : Services.
Variable settings : Settings.

Lemma find_function_call_part_Some response part :
  find_function_call_part response = Some part ->
  exists function_obj, function_call part = Some function_obj.
Proof.
  unfold find_function_call_part.
  destruct (candidates response) as [[|candidate ?]|]; try discriminate.
  destruct (content candidate) as [c|]; try discriminate.
  destruct (parts c) as [ps|]; try discriminate.
  intros H. apply find_some in H as [_ H].
  apply bool_decide_eq_true_1 in H. destruct H as [fc H]. eauto.
Qed.

(** [tool_result_part] never raises; it yields a part exactly for the
    weather tool called with an argument mapping, whatever the tool
    returned. *)
Lemma tool_result_part_eq function_obj call_id st :
  tool_result_part svc settings function_obj call_id st =
  match fc_name function_obj, fc_args function_obj with
  | Some name, Some args =>
      if bool_decide (name = weather_tool_name) then
        match get_weather_from_city_state svc (args !! "city") (args !! "state")
                (google_api_key settings) (noaa_user_agent settings) st with
        | (Ok result_output, st') =>
            (Ok (Some (weather_result_part call_id result_output)), st')
        | (_, st') => (Ok None, st')
        end
      else (Ok None, st)
  | Some name, None =>
      (Ok None, st)
  | None, _ => (Ok None, st)
  end.
Proof.
  unfold tool_result_part.
  destruct (fc_name function_obj) as [name|]; [|reflexivity].
  destruct (bool_decide_reflect (Some name = Some weather_tool_name)) as [E|E].
  - injection E as ->. rewrite bool_decide_eq_true_2 by reflexivity.
    destruct (fc_args function_obj) as [args|]; [|reflexivity].
    unfold_monad.
    destruct (get_weather_from_city_state_returns svc (args !! "city")
                (args !! "state") (google_api_key settings)
                (noaa_user_agent settings) st) as (out & evs & -> & _).
    reflexivity.
  - rewrite bool_decide_eq_false_2 by congruence.
    destruct (fc_args function_obj); reflexivity.
Qed.

Lemma tool_result_part_returns function_obj call_id st :
  exists result_part evs,
    tool_result_part svc settings function_obj call_id st =
    (Ok result_part, with_trace st evs)
    /\ backend_calls evs = []
    /\ (forall rp, result_part = Some rp ->
          exists result_output, rp = weather_result_part call_id result_output).
Proof.
  rewrite tool_result_part_eq.
  assert (Hnil : (Ok (@None Part), st) = (Ok None, with_trace st [])).
  { unfold with_trace. rewrite app_nil_r. by destruct st. }
  destruct (fc_name function_obj) as [name|];
    [|exists None, []; rewrite Hnil; repeat split; intros; discriminate].
  destruct (fc_args function_obj) as [args|];
    [|exists None, []; rewrite Hnil; repeat split; intros; discriminate].
  case_bool_decide;
    [|exists None, []; rewrite Hnil; repeat split; intros; discriminate].
  destruct (get_weather_from_city_state_returns svc (args !! "city")
              (args !! "state") (google_api_key settings)
              (noaa_user_agent settings) st) as (out & evs & -> & Hb & _).
  eexists _, _. split; [reflexivity|]. split; [exact Hb|].
  intros rp [= <-]. eauto.
Qed.

Lemma handle_response_final fuel response model st :
  find_function_call_part response = None ->
  handle_response svc settings fuel response model st =
  (Ok (if truthy (response_text response) then response_text response else None), st).
Proof.
  intros H. destruct fuel; simpl; rewrite H;
    destruct (truthy (response_text response)); reflexivity.
Qed.

Lemma handle_response_no_result fuel response model st part function_obj st1 :
  find_function_call_part response = Some part ->
  function_call part = Some function_obj ->
  tool_result_part svc settings function_obj (fc_id function_obj) st = (Ok None, st1) ->
  handle_response svc settings fuel response model st = (Ok None, st1).
Proof.
  intros Hf Hc Ht. destruct fuel; simpl; rewrite Hf, Hc; unfold_monad;
    rewrite Ht; reflexivity.
Qed.

Lemma handle_response_round fuel response model st part function_obj rp st1 :
  find_function_call_part response = Some part ->
  function_call part = Some function_obj ->
  tool_result_part svc settings function_obj (fc_id function_obj) st = (Ok (Some rp), st1) ->
  handle_response svc settings fuel response model st =
  let st2 := next_round_state st1 function_obj rp in
  let st3 := with_trace st2 [next_round_call model st2] in
  match generate_content svc model (st_contents st2) (st_config st2) with
  | Throws e => (Ok None, st3)
  | Returns next_response =>
      match fuel with
      | O => (OutOfFuel, st3)
      | S fuel' =>
          match handle_response svc settings fuel' next_response model st3 with
          | (Raise _, st') => (Ok None, st')
          | r => r
          end
      end
  end.
Proof.
  intros Hf Hc Ht.
  destruct fuel; simpl; rewrite Hf, Hc; unfold_monad; rewrite Ht;
    unfold contents_append, config_set_tools, call_generate_content;
    unfold_monad; simpl; rewrite external_eq;
    unfold next_round_call, next_round_state; simpl;
    destruct (generate_content svc model _ _); reflexivity.
Qed.

End CoreFacts.

(** ** What every run of the response loop preserves *)

Section LoopInvariant.

Variable svc : Services.
Variable settings : Settings.

Lemma no_text_sanitized_model_turn function_obj call_id :
  no_text_turn (sanitized_model_turn function_obj call_id).
Proof. unfold no_text_turn; simpl. by repeat constructor. Qed.

Lemma no_text_tool_turn call_id result_output :
  no_text_turn (tool_turn (weather_result_part call_id result_output)).
Proof. unfold no_text_turn; simpl. by repeat constructor. Qed.

Lemma truthy_not_empty (o : option string) :
  truthy o = true -> o <> Some "".
Proof. intros H ->. discriminate. Qed.

Lemma loop_post_final fuel response model st :
  find_function_call_part response = None ->
  loop_post model st (handle_response svc settings fuel response model st).
Proof.
  intros Hf. rewrite handle_response_final by exact Hf.
  exists [], []. simpl. rewrite !app_nil_r.
  split_and!; try done.
  destruct (truthy (response_text response)) eqn:Ht; [|done].
  intros [= E]. by apply truthy_not_empty in Ht.
Qed.

Lemma loop_post_no_result fuel response model st part function_obj st1 :
  find_function_call_part response = Some part ->
  function_call part = Some function_obj ->
  tool_result_part svc settings function_obj (fc_id function_obj) st = (Ok None, st1) ->
  loop_post model st (handle_response svc settings fuel response model st).
Proof.
  intros Hf Hc Ht.
  rewrite (handle_response_no_result _ _ _ _ _ _ _ _ _ Hf Hc Ht).
  destruct (tool_result_part_returns svc settings function_obj (fc_id function_obj) st)
    as (rp & evs_t & Ht' & Hb & _).
  rewrite Ht in Ht'. injection Ht' as <- ->.
  exists [], evs_t. simpl. rewrite !app_nil_r.
  split_and!; try done.
  rewrite Hb. intros k m cs cfg Hk. by destruct k.
Qed.

Lemma no_text_round_turns function_obj result_output turns :
  Forall no_text_turn turns ->
  Forall no_text_turn
    (sanitized_model_turn function_obj (fc_id function_obj)
     :: tool_turn (weather_result_part (fc_id function_obj) result_output)
     :: turns).
Proof.
  intros H. apply Forall_cons_2; [apply no_text_sanitized_model_turn|].
  apply Forall_cons_2; [apply no_text_tool_turn | exact H].
Qed.

(** After a tool round and the backend's answer, whatever follows from
    [st3] and meets [loop_post] there meets it from [st]. *)
Lemma loop_post_round model st evs_t function_obj result_output res :
  backend_calls evs_t = [] ->
  let st2 := next_round_state (with_trace st evs_t) function_obj
               (weather_result_part (fc_id function_obj) result_output) in
  let st3 := with_trace st2 [next_round_call model st2] in
  loop_post model st3 res ->
  loop_post model st res.
Proof.
  intros Hb st2 st3 (turns & evs & Hcs & Hnt & Htr & Hcl & Hr & He & Hcalls).
  exists ([sanitized_model_turn function_obj (fc_id function_obj);
           tool_turn (weather_result_part (fc_id function_obj) result_output)]
          ++ turns),
         (evs_t ++ [next_round_call model st2] ++ evs).
  rewrite Hcs, Htr, Hcl. simpl. rewrite <- !app_assoc. simpl.
  split_and!; try done.
  - by apply no_text_round_turns.
  - rewrite backend_calls_app, Hb. simpl.
    intros [|k] m cs cfg Hk.
    + injection Hk as <- <- <-. simpl. split_and!; try done.
      rewrite <- !app_assoc. simpl.
      eexists; split; [reflexivity|].
      by apply no_text_round_turns.
    + simpl in Hk.
      destruct (Hcalls k m cs cfg Hk) as (-> & Htools & Hsys & extra & -> & Hextra).
      simpl in Htools, Hsys. split_and!; try done.
      * rewrite Htools. by rewrite drop_drop.
      * simpl. rewrite <- !app_assoc. simpl.
        eexists; split; [reflexivity|].
        by apply no_text_round_turns.
Qed.

(** A run that stops at [st] with neither an exception nor an empty
    string meets [loop_post] from [st]. *)
Lemma loop_post_stop model st (r : Outcome (option string)) :
  (forall e, r <> Raise e) -> r <> Ok (Some "") -> loop_post model st (r, st).
Proof.
  intros Hr He. exists [], []. simpl. rewrite !app_nil_r.
  split_and!; done.
Qed.

Lemma handle_response_post fuel :
  forall response model st,
    loop_post model st (handle_response svc settings fuel response model st).
Proof.
  induction fuel as [|fuel IH]; intros response model st.
  all: destruct (find_function_call_part response) as [part|] eqn:Hf;
         [|by apply loop_post_final].
  all: destruct (find_function_call_part_Some _ _ Hf) as [fc Hc].
  all: destruct (tool_result_part_returns svc settings fc (fc_id fc) st)
         as (rp & evs_t & Ht & Hb & Hrp).
  all: destruct rp as [rp|]; [|by eapply loop_post_no_result].
  all: destruct (Hrp rp eq_refl) as [out ->].
  all: rewrite (handle_response_round _ _ _ _ _ _ _ _ _ _ Hf Hc Ht); cbv zeta.
  all: destruct (generate_content svc model _ _) as [next_response|e].
  all: try (apply (loop_post_round model st evs_t fc out _ Hb);
            by apply loop_post_stop).
  apply (loop_post_round model st evs_t fc out _ Hb).
  match goal with |- loop_post _ ?s _ => specialize (IH next_response model s) end.
  destruct (handle_response svc settings fuel next_response model _)
    as [[r|e|] s] eqn:E; try exact IH.
  destruct IH as (_ & _ & _ & _ & _ & _ & Hr & _). by destruct (Hr e).
Qed.

(** A run that ends within its bound is the run with a larger bound. *)
Lemma handle_response_more_fuel fuel :
  forall response model st,
    fst (handle_response svc settings fuel response model st) <> OutOfFuel ->
    handle_response svc settings (S fuel) response model st =
    handle_response svc settings fuel response model st.
Proof.
  induction fuel as [|fuel IH]; intros response model st Hend.
  all: destruct (find_function_call_part response) as [part|] eqn:Hf;
         [|by rewrite !handle_response_final].
  all: destruct (find_function_call_part_Some _ _ Hf) as [fc Hc].
  all: destruct (tool_result_part_returns svc settings fc (fc_id fc) st)
         as (rp & evs_t & Ht & _ & _).
  all: destruct rp as [rp|];
         [|by rewrite !(handle_response_no_result _ _ _ _ _ _ _ _ _ Hf Hc Ht)].
  all: rewrite (handle_response_round _ _ _ _ _ _ _ _ _ _ Hf Hc Ht) in Hend.
  all: rewrite !(handle_response_round _ _ _ _ _ _ _ _ _ _ Hf Hc Ht).
  all: cbv zeta in Hend |- *.
  all: destruct (generate_content svc model _ _) as [next_response|e];
         [|reflexivity].
  - by destruct Hend.
  - rewrite IH; [reflexivity|].
    intros Hout. apply Hend.
    destruct (handle_response svc settings fuel next_response model _)
      as [[r|e|] s]; simpl in Hout |- *; done.
Qed.

End LoopInvariant.

(** ** Screening *)

Section ScreeningFacts.

Variable svc : Services.

Lemma check_prompt_with_model_armor_eq prompt project loc template st :
  check_prompt_with_model_armor svc prompt project loc template st =
  let endpoint := model_armor_endpoint st loc in
  let name := template_path project loc template in
  let st' := with_trace (with_client st loc)
               [EvSanitizeUserPrompt endpoint name prompt] in
  match sanitize_user_prompt svc endpoint name prompt with
  | Returns verdict => (Ok (negb (is_match_found verdict)), st')
  | Throws e => (Raise e, st')
  end.
Proof.
  unfold check_prompt_with_model_armor, get_model_armor_client,
    model_armor_endpoint, with_client.
  unfold_monad. destruct (st_model_armor_client st) as [client|]; simpl;
    rewrite external_eq; destruct (sanitize_user_prompt svc _ _ _) as [v|e];
    try reflexivity; by destruct (is_match_found v).
Qed.

Lemma check_response_with_model_armor_eq model_response project loc template st :
  check_response_with_model_armor svc model_response project loc template st =
  let endpoint := model_armor_endpoint st loc in
  let name := template_path project loc template in
  let st' := with_trace (with_client st loc)
               [EvSanitizeModelResponse endpoint name model_response] in
  match sanitize_model_response svc endpoint name model_response with
  | Returns verdict => (Ok (negb (is_match_found verdict)), st')
  | Throws e => (Raise e, st')
  end.
Proof.
  unfold check_response_with_model_armor, get_model_armor_client,
    model_armor_endpoint, with_client.
  unfold_monad. destruct (st_model_armor_client st) as [client|]; simpl;
    rewrite external_eq; destruct (sanitize_model_response svc _ _ _) as [v|e];
    try reflexivity; by destruct (is_match_found v).
Qed.

Lemma with_client_contents st loc :
  st_contents (with_client st loc) = st_contents st.
Proof. unfold with_client. by destruct (st_model_armor_client st). Qed.

Lemma with_client_config st loc :
  st_config (with_client st loc) = st_config st.
Proof. unfold with_client. by destruct (st_model_armor_client st). Qed.

Lemma with_client_trace st loc :
  st_trace (with_client st loc) = st_trace st.
Proof. unfold with_client. by destruct (st_model_armor_client st). Qed.

End ScreeningFacts.

(** ** [generate] *)

Section GenerateFacts.

Variable svc : Services.
Variable settings : Settings.

Lemma screen_prompt_request_state user_query st :
  fst (screen_prompt svc settings user_query (request_state settings st user_query)) =
  fst (screen_prompt svc settings user_query st).
Proof.
  unfold screen_prompt. rewrite !check_prompt_with_model_armor_eq. cbv zeta.
  unfold model_armor_endpoint; simpl.
  by destruct (sanitize_user_prompt svc _ _ _).
Qed.

Lemma generate_blocked fuel user_query st :
  fst (screen_prompt svc settings user_query st) = Ok false ->
  generate svc settings fuel user_query st =
  (Ok None, snd (screen_prompt svc settings user_query (request_state settings st user_query))).
Proof.
  intros H. rewrite <- screen_prompt_request_state in H.
  unfold generate, screen_prompt in *. unfold_monad.
  unfold set_contents, set_config; simpl. fold (request_state settings st user_query).
  destruct (check_prompt_with_model_armor svc user_query _ _ _ _) as [r st1].
  simpl in H. by subst r.
Qed.

Lemma generate_post_holds fuel user_query st :
  generate_post svc settings user_query st (generate svc settings fuel user_query st).
Proof.
  pose proof (screen_prompt_request_state user_query st) as Hscreen.
  unfold screen_prompt in Hscreen at 1.
  rewrite check_prompt_with_model_armor_eq in Hscreen. cbv zeta in Hscreen.
  unfold generate. unfold_monad.
  unfold set_contents, set_config; simpl. fold (request_state settings st user_query).
  rewrite check_prompt_with_model_armor_eq. cbv zeta.
  set (ev := EvSanitizeUserPrompt _ _ _).
  set (st0 := with_client (request_state settings st user_query) _).
  assert (Htr0 : st_trace st0 = st_trace st).
  { unfold st0. by rewrite with_client_trace. }
  assert (Hcs0 : st_contents st0 = [user_turn user_query]).
  { unfold st0. by rewrite with_client_contents. }
  assert (Hcfg0 : st_config st0 = generate_content_config settings).
  { unfold st0. by rewrite with_client_config. }
  assert (Hstop : forall r : Outcome (option string),
            r <> Ok (Some "") ->
            fst (screen_prompt svc settings user_query st) <> Ok true ->
            generate_post svc settings user_query st (r, with_trace st0 [ev])).
  { intros r Hr Hs. exists [ev]. simpl. rewrite Htr0. by split_and!. }
  destruct (sanitize_user_prompt svc _ _ _) as [verdict|e];
    [|apply Hstop; [done|by rewrite <- Hscreen]].
  destruct (is_match_found verdict); simpl in Hscreen |- *;
    [apply Hstop; [done|by rewrite <- Hscreen]|].
  unfold call_generate_content. unfold_monad. rewrite external_eq. simpl.
  rewrite Hcs0, Hcfg0.
  set (call := EvGenerateContent _ _ _).
  set (st1 := with_trace (with_trace st0 [ev]) [call]).
  assert (Hfirst : forall (r : Outcome (option string)) s evs,
            r <> Ok (Some "") ->
            st_trace s = st_trace st1 ++ evs ->
            (forall (k : nat) m cs cfg,
               backend_calls evs !! k = Some (m, cs, cfg) ->
               m = model_name settings
               /\ tools cfg = drop (S k) (all_tools settings)
               /\ system_instruction cfg = None
               /\ exists extra,
                    cs = user_turn user_query :: extra
                    /\ Forall no_text_turn extra) ->
            generate_post svc settings user_query st (r, s)).
  { intros r s evs Hr Hs Hcalls. exists ([ev] ++ [call] ++ evs). simpl.
    rewrite Hs. unfold st1. simpl. rewrite Htr0, <- !app_assoc. simpl.
    split_and!; try done.
    intros [|k] m cs cfg Hk; simpl in Hk.
    - injection Hk as <- <- <-. split_and!; try done.
      exists []. by split_and!.
    - destruct (Hcalls k m cs cfg Hk) as (-> & Ht & Hsys & extra & -> & Hnt).
      split_and!; try done. exists extra. by split_and!. }
  destruct (generate_content svc _ _ _) as [initial_response|e].
  2: { apply (Hfirst _ _ []); [done|by rewrite app_nil_r|].
       intros k m cs cfg Hk. by destruct k. }
  destruct (handle_response_post svc settings fuel initial_response
              (model_name settings) st1)
    as (turns & evs & Hcs & Hnt & Htr & Hcl & Hr & He & Hcalls).
  assert (Hcalls' : forall (k : nat) m cs cfg,
            backend_calls evs !! k = Some (m, cs, cfg) ->
            m = model_name settings
            /\ tools cfg = drop (S k) (all_tools settings)
            /\ system_instruction cfg = None
            /\ exists extra,
                 cs = user_turn user_query :: extra
                 /\ Forall no_text_turn extra).
  { intros k m cs cfg Hk.
    destruct (Hcalls k m cs cfg Hk) as (-> & Ht & Hsys & extra & -> & Hextra).
    unfold st1 in Ht, Hsys. simpl in Ht, Hsys.
    rewrite Hcfg0 in Ht, Hsys. simpl in Ht, Hsys.
    split_and!; try done.
    exists extra. unfold st1. simpl. rewrite Hcs0. by simpl. }
  destruct (handle_response svc settings fuel initial_response
              (model_name settings) st1) as [[[final_text|]|e|] s] eqn:E;
    simpl in Hcs, Htr, Hcl, Hr, He |- *.
  - destruct (String.eqb_spec final_text "") as [->|Hne]; [by destruct He|].
    rewrite check_response_with_model_armor_eq. cbv zeta.
    set (ev' := EvSanitizeModelResponse _ _ _).
    assert (Hlast : forall r : Outcome (option string),
              r <> Ok (Some "") ->
              generate_post svc settings user_query st
                (r, with_trace (with_client s (model_armor_location settings)) [ev'])).
    { intros r Hr'. apply (Hfirst _ _ (evs ++ [ev'])); [done| |].
      - simpl. rewrite with_client_trace, Htr. by rewrite <- app_assoc.
      - rewrite backend_calls_app. simpl. rewrite app_nil_r. exact Hcalls'. }
    destruct (sanitize_model_response svc _ _ _) as [verdict'|e'];
      [|by apply Hlast].
    destruct (is_match_found verdict'); simpl; apply Hlast; [done|].
    intros [= ->]. by destruct Hne.
  - by apply (Hfirst _ _ evs).
  - by destruct (Hr e).
  - by apply (Hfirst _ _ evs).
Qed.

End GenerateFacts.

(** ** The events of a run *)

Lemma new_events_app st st' evs :
  st_trace st' = st_trace st ++ evs -> new_events st st' = evs.
Proof. intros H. unfold new_events. rewrite H. apply drop_app_length. Qed.

Lemma new_events_with_trace st evs : new_events st (with_trace st evs) = evs.
Proof. by apply new_events_app. Qed.

Lemma new_events_same st : new_events st st = [].
Proof. apply new_events_app. by rewrite app_nil_r. Qed.

(** ** The tool declarations of each round (C1) *)

(** C1. On round N >= 1 of the response loop the backend receives the
    tool declarations the loop started with less their first N: the
    list has max(0, initial_count - N) entries, whatever tool the model
    asked for. *)
Theorem C1_tool_declarations_shrink svc settings fuel response model st
    (N : nat) m cs cfg :
  (1 <= N)%nat ->
  backend_calls
    (new_events st (snd (handle_response svc settings fuel response model st)))
    !! (N - 1)%nat = Some (m, cs, cfg) ->
  tools cfg = drop N (tools (st_config st))
  /\ Z.of_nat (length (tools cfg)) =
     Z.max 0 (Z.of_nat (length (tools (st_config st))) - Z.of_nat N).
Proof.
  intros HN Hcall.
  destruct (handle_response_post svc settings fuel response model st)
    as (turns & evs & _ & _ & Htr & _ & _ & _ & Hcalls).
  rewrite (new_events_app _ _ _ Htr) in Hcall.
  destruct (Hcalls _ _ _ _ Hcall) as (_ & Htools & _).
  replace (S (N - 1)) with N in Htools by lia.
  split; [exact Htools|].
  rewrite Htools, length_drop. lia.
Qed.

Lemma C1_tool_declarations_shrink_witness :
  tools second_round_config = drop 1 (tools (st_config denver_state))
  /\ Z.of_nat (length (tools second_round_config)) =
     Z.max 0 (Z.of_nat (length (tools (st_config denver_state))) - Z.of_nat 1).
Proof.
  apply (C1_tool_declarations_shrink scenario_C sample_settings 3
           (response_of_parts [raw_denver_part] None) "gemini-2.5-pro"
           denver_state 1 "gemini-2.5-pro"
           (st_contents denver_state
              ++ [sanitized_model_turn denver_call (Some "abc");
                  tool_turn (weather_result_part (Some "abc")
                               (Some (forecast_text denver_period)))])
           second_round_config).
  - lia.
  - vm_compute. reflexivity.
Defined.

(** Seen from [generate], whose opening call is round 0 and carries
    both declarations. *)
Lemma generate_tool_declarations svc settings fuel user_query st (N : nat) m cs cfg :
  backend_calls
    (new_events st (snd (generate svc settings fuel user_query st))) !! N
  = Some (m, cs, cfg) ->
  tools cfg = drop N (all_tools settings)
  /\ Z.of_nat (length (tools cfg)) = Z.max 0 (2 - Z.of_nat N).
Proof.
  intros Hcall.
  destruct (generate_post_holds svc settings fuel user_query st)
    as (evs & Htr & _ & _ & Hcalls).
  rewrite (new_events_app _ _ _ Htr) in Hcall.
  destruct (Hcalls _ _ _ _ Hcall) as (_ & Htools & _).
  split; [exact Htools|].
  rewrite Htools, length_drop. simpl. lia.
Qed.

(** ** Only the first function call counts (C2) *)

Lemma find_function_call_part_parts response :
  find_function_call_part response =
  List.find (fun part => bool_decide (is_Some (function_call part)))
            (first_candidate_parts response).
Proof.
  unfold find_function_call_part, first_candidate_parts.
  destruct (candidates response) as [[|candidate ?]|]; try reflexivity.
  destruct (content candidate) as [c|]; try reflexivity.
  by destruct (parts c).
Qed.

Lemma find_first_function_call (pre post : list Part) part function_obj :
  Forall (fun p => function_call p = None) pre ->
  function_call part = Some function_obj ->
  List.find (fun part => bool_decide (is_Some (function_call part)))
            (pre ++ part :: post) = Some part.
Proof.
  intros Hpre Hpart. induction Hpre as [|p pre Hp _ IH]; simpl.
  - rewrite Hpart. by rewrite bool_decide_eq_true_2.
  - rewrite Hp. rewrite bool_decide_eq_false_2; [exact IH|].
    by intros [? ?].
Qed.

(** The loop reads a response with a function call only through its
    first function-call part. *)
Lemma handle_response_same_part svc settings fuel r1 r2 part model st :
  find_function_call_part r1 = Some part ->
  find_function_call_part r2 = Some part ->
  handle_response svc settings fuel r1 model st =
  handle_response svc settings fuel r2 model st.
Proof. intros H1 H2. destruct fuel; simpl; by rewrite H1, H2. Qed.

Lemma handle_response_round_tool_calls svc settings response model st part function_obj :
  find_function_call_part response = Some part ->
  function_call part = Some function_obj ->
  tool_calls
    (new_events st (snd (handle_response svc settings 0 response model st)))
  = round_tool_calls function_obj.
Proof.
  intros Hf Hc. unfold round_tool_calls.
  pose proof (tool_result_part_eq svc settings function_obj (fc_id function_obj) st) as Ht.
  destruct (fc_name function_obj) as [name|];
    [|by rewrite (handle_response_no_result _ _ _ _ _ _ _ _ _ Hf Hc Ht), new_events_same].
  destruct (fc_args function_obj) as [args|];
    [|by rewrite (handle_response_no_result _ _ _ _ _ _ _ _ _ Hf Hc Ht), new_events_same].
  case_bool_decide;
    [|by rewrite (handle_response_no_result _ _ _ _ _ _ _ _ _ Hf Hc Ht), new_events_same].
  destruct (get_weather_from_city_state_returns svc (args !! "city")
              (args !! "state") (google_api_key settings)
              (noaa_user_agent settings) st) as (out & evs & Hw & _ & Hno).
  rewrite Hw in Ht.
  rewrite (handle_response_round _ _ _ _ _ _ _ _ _ _ Hf Hc Ht). cbv zeta.
  set (st2 := next_round_state _ _ _).
  assert (Htr : forall r : Outcome (option string),
            tool_calls (new_events st (snd (r, with_trace st2 [next_round_call model st2])))
            = [(args !! "city", args !! "state")]).
  { intros r. rewrite (new_events_app _ _
      ((EvWeatherTool (args !! "city") (args !! "state") :: evs)
       ++ [next_round_call model st2])).
    - rewrite tool_calls_app. simpl. by rewrite Hno.
    - simpl. by rewrite <- app_assoc. }
  destruct (generate_content svc model _ _); apply Htr.
Qed.

(** C2. When the parts of the first candidate hold a function call,
    the loop acts on the first such part alone: it is the part found,
    the run is the run on a response made of that part only, and the
    one tool invocation of the round, if any, is that part's. *)
Theorem C2_first_function_call_only svc settings fuel model st response
    (pre post : list Part) part function_obj :
  first_candidate_parts response = pre ++ part :: post ->
  Forall (fun p => function_call p = None) pre ->
  function_call part = Some function_obj ->
  find_function_call_part response = Some part
  /\ handle_response svc settings fuel response model st =
     handle_response svc settings fuel (response_of_parts [part] None) model st
  /\ tool_calls
       (new_events st (snd (handle_response svc settings 0 response model st)))
     = round_tool_calls function_obj.
Proof.
  intros Hparts Hpre Hpart.
  assert (Hf : find_function_call_part response = Some part).
  { rewrite find_function_call_part_parts, Hparts.
    by eapply find_first_function_call. }
  split_and!; [exact Hf| |by eapply handle_response_round_tool_calls].
  apply (handle_response_same_part _ _ _ _ _ part); [exact Hf|].
  unfold find_function_call_part; simpl. rewrite Hpart.
  by rewrite bool_decide_eq_true_2.
Qed.

Lemma C2_first_function_call_only_witness :
  find_function_call_part two_calls_response = Some raw_denver_part
  /\ handle_response scenario_C sample_settings 2 two_calls_response
       "gemini-2.5-pro" denver_state =
     handle_response scenario_C sample_settings 2
       (response_of_parts [raw_denver_part] None) "gemini-2.5-pro" denver_state
  /\ tool_calls
       (new_events denver_state
          (snd (handle_response scenario_C sample_settings 0 two_calls_response
                  "gemini-2.5-pro" denver_state)))
     = round_tool_calls denver_call.
Proof.
  apply (C2_first_function_call_only scenario_C sample_settings 2
           "gemini-2.5-pro" denver_state two_calls_response
           [Part_from_text "Let me check."] [Part_of_function_call other_call]
           raw_denver_part denver_call).
  - reflexivity.
  - repeat constructor.
  - reflexivity.
Defined.

(** In that run the weather tool is invoked once, for Denver, and the
    second function call never. *)
Example two_function_calls_one_tool :
  tool_calls
    (new_events denver_state
       (snd (handle_response scenario_C sample_settings 2 two_calls_response
               "gemini-2.5-pro" denver_state)))
  = [(Some "Denver", Some "CO")].
Proof. vm_compute. reflexivity. Qed.

(** ** A round without result part (C3) *)

(** The tool block yields no result part exactly when the function
    called is not the weather tool or comes without arguments. *)
Lemma tool_result_part_None_iff svc settings function_obj call_id st :
  fst (tool_result_part svc settings function_obj call_id st) = Ok None
  <-> (fc_name function_obj <> Some weather_tool_name
       \/ fc_args function_obj = None).
Proof.
  rewrite tool_result_part_eq.
  destruct (fc_name function_obj) as [name|]; [|split; [by left|done]].
  destruct (fc_args function_obj) as [args|]; [|split; [by right|done]].
  case_bool_decide as Hn.
  - subst name.
    destruct (get_weather_from_city_state_returns svc (args !! "city")
                (args !! "state") (google_api_key settings)
                (noaa_user_agent settings) st) as (out & evs & -> & _).
    simpl. split; [done|]. by intros [?|?].
  - simpl. split; [|done]. intros _. left. congruence.
Qed.

(** C3, as amended.  When the tool block yields no result part (the
    function called is not the registered weather tool, or running the
    tool raised), the loop returns [None], leaves the history as it
    was and calls the backend no more. *)
Theorem C3_no_result_part_aborts svc settings fuel response model st part
    function_obj :
  find_function_call_part response = Some part ->
  function_call part = Some function_obj ->
  fst (tool_result_part svc settings function_obj (fc_id function_obj) st) = Ok None ->
  fst (handle_response svc settings fuel response model st) = Ok None
  /\ st_contents (snd (handle_response svc settings fuel response model st))
     = st_contents st
  /\ backend_calls
       (new_events st (snd (handle_response svc settings fuel response model st)))
     = [].
Proof.
  intros Hf Hc Ht.
  destruct (tool_result_part_returns svc settings function_obj (fc_id function_obj) st)
    as (rp & evs & Hrp & Hb & _).
  rewrite Hrp in Ht. simpl in Ht. injection Ht as ->.
  rewrite (handle_response_no_result _ _ _ _ _ _ _ _ _ Hf Hc Hrp). simpl.
  by rewrite new_events_with_trace.
Qed.

Lemma C3_no_result_part_aborts_witness :
  fst (handle_response scenario_C sample_settings 3 other_call_response
         "gemini-2.5-pro" denver_state)
  = Ok None
  /\ st_contents
       (snd (handle_response scenario_C sample_settings 3 other_call_response
               "gemini-2.5-pro" denver_state))
     = st_contents denver_state
  /\ backend_calls
       (new_events denver_state
          (snd (handle_response scenario_C sample_settings 3 other_call_response
                  "gemini-2.5-pro" denver_state)))
     = [].
Proof.
  apply (C3_no_result_part_aborts scenario_C sample_settings 3
           other_call_response "gemini-2.5-pro" denver_state
           (Part_of_function_call other_call) other_call).
  - reflexivity.
  - reflexivity.
  - vm_compute. reflexivity.
Defined.

(** What the run of scenario D does: geocoding returns zero results,
    so the weather tool returns [None]; the loop wraps that [None] as
    the tool's content, appends both turns, calls the backend again and
    returns its text. *)
Example failed_tool_round_goes_on :
  fst (handle_response scenario_D sample_settings 1
         (response_of_parts [raw_denver_part] None) "gemini-2.5-pro" denver_state)
  = Ok (Some clear_skies)
  /\ st_contents
       (snd (handle_response scenario_D sample_settings 1
               (response_of_parts [raw_denver_part] None) "gemini-2.5-pro"
               denver_state))
     = [user_turn denver_query;
        sanitized_model_turn denver_call (Some "abc");
        tool_turn (weather_result_part (Some "abc") None)]
  /\ length
       (backend_calls
          (new_events denver_state
             (snd (handle_response scenario_D sample_settings 1
                     (response_of_parts [raw_denver_part] None)
                     "gemini-2.5-pro" denver_state))))
     = 1%nat.
Proof. split_and!; vm_compute; reflexivity. Qed.

(** C3 as stated fails in scenario D: the tool executor has failed (the
    weather tool returned [None]), and the loop neither returns [None]
    nor stops calling the backend. *)
Lemma C3_counterexample :
  ~ (find_function_call_part (response_of_parts [raw_denver_part] None)
     = Some raw_denver_part ->
     function_call raw_denver_part = Some denver_call ->
     tool_executor_fails scenario_D sample_settings denver_call denver_state ->
     fst (handle_response scenario_D sample_settings 1
            (response_of_parts [raw_denver_part] None) "gemini-2.5-pro"
            denver_state)
     = Ok None
     /\ st_contents
          (snd (handle_response scenario_D sample_settings 1
                  (response_of_parts [raw_denver_part] None) "gemini-2.5-pro"
                  denver_state))
        = st_contents denver_state
     /\ backend_calls
          (new_events denver_state
             (snd (handle_response scenario_D sample_settings 1
                     (response_of_parts [raw_denver_part] None)
                     "gemini-2.5-pro" denver_state)))
        = []).
Proof.
  intros H.
  assert (Hfails : tool_executor_fails scenario_D sample_settings denver_call
                     denver_state).
  { right. exists {[ "city" := "Denver"; "state" := "CO" ]}.
    split_and!; reflexivity. }
  destruct (H eq_refl eq_refl Hfails) as [Hnull _].
  vm_compute in Hnull. discriminate.
Qed.

(** ** A blocked prompt (C4) *)

(** C4. When the screening of the prompt returns false, [generate]
    returns [None] and has made no call to the LLM backend. *)
Theorem C4_blocked_prompt_no_backend_call svc settings fuel user_query st :
  fst (check_prompt_with_model_armor svc user_query (project_id settings)
         (model_armor_location settings) (model_armor_template_id settings) st)
  = Ok false ->
  fst (generate svc settings fuel user_query st) = Ok None
  /\ backend_calls
       (new_events st (snd (generate svc settings fuel user_query st))) = [].
Proof.
  intros H. rewrite (generate_blocked svc settings fuel user_query st H). simpl.
  split; [reflexivity|].
  unfold screen_prompt. rewrite check_prompt_with_model_armor_eq. cbv zeta.
  set (ev := EvSanitizeUserPrompt _ _ _).
  assert (Hev : forall (r : Outcome bool) s,
            st_trace s = st_trace st ->
            backend_calls (new_events st (snd (r, with_trace s [ev]))) = []).
  { intros r s Hs. by rewrite (new_events_app _ _ [ev]); [|simpl; rewrite Hs]. }
  destruct (sanitize_user_prompt svc _ _ _); apply Hev;
    by rewrite with_client_trace.
Qed.

Lemma C4_blocked_prompt_no_backend_call_witness :
  fst (generate scenario_A sample_settings 5 denver_query idle_state) = Ok None
  /\ backend_calls
       (new_events idle_state
          (snd (generate scenario_A sample_settings 5 denver_query idle_state)))
     = [].
Proof.
  apply (C4_blocked_prompt_no_backend_call scenario_A sample_settings 5
           denver_query idle_state).
  vm_compute. reflexivity.
Defined.

(** ** The two turns of a tool round (C5, C6) *)

(** A result part comes out of the tool block only for the weather
    tool, and then it wraps what the tool returned. *)
Lemma tool_result_part_Some svc settings function_obj call_id st rp :
  fst (tool_result_part svc settings function_obj call_id st) = Ok (Some rp) ->
  exists args result_output,
    fc_name function_obj = Some weather_tool_name
    /\ fc_args function_obj = Some args
    /\ fst (get_weather_from_city_state svc (args !! "city") (args !! "state")
             (google_api_key settings) (noaa_user_agent settings) st)
       = Ok result_output
    /\ rp = weather_result_part call_id result_output.
Proof.
  rewrite tool_result_part_eq.
  destruct (fc_name function_obj) as [name|]; [|by simpl].
  destruct (fc_args function_obj) as [args|]; [|by simpl].
  case_bool_decide as Hn; [subst name|by simpl].
  destruct (get_weather_from_city_state svc (args !! "city") (args !! "state")
              (google_api_key settings) (noaa_user_agent settings) st)
    as [[out| |] st'] eqn:Hw; simpl; try done.
  intros [= <-]. exists args, out. rewrite Hw. by split_and!.
Qed.

(** After a round with a result part the history is the one before,
    then the model turn, then the tool turn, then what later rounds
    append. *)
Lemma handle_response_round_contents svc settings fuel response model st part
    function_obj rp :
  find_function_call_part response = Some part ->
  function_call part = Some function_obj ->
  fst (tool_result_part svc settings function_obj (fc_id function_obj) st)
  = Ok (Some rp) ->
  exists rest,
    st_contents (snd (handle_response svc settings fuel response model st)) =
    st_contents st
    ++ [sanitized_model_turn function_obj (fc_id function_obj); tool_turn rp]
    ++ rest.
Proof.
  intros Hf Hc Ht.
  destruct (tool_result_part_returns svc settings function_obj (fc_id function_obj) st)
    as (rp' & evs & Hrp & _ & _).
  rewrite Hrp in Ht. simpl in Ht. injection Ht as ->.
  rewrite (handle_response_round _ _ _ _ _ _ _ _ _ _ Hf Hc Hrp). cbv zeta.
  set (st2 := next_round_state _ _ _).
  set (st3 := with_trace st2 _).
  assert (Hst3 : st_contents st3 =
                 st_contents st
                 ++ [sanitized_model_turn function_obj (fc_id function_obj);
                     tool_turn rp]).
  { simpl. by rewrite <- app_assoc. }
  destruct (generate_content svc model _ _) as [next_response|e];
    [|exists []; simpl; by rewrite <- !app_assoc].
  destruct fuel as [|fuel]; [exists []; simpl; by rewrite <- !app_assoc|].
  destruct (handle_response_post svc settings fuel next_response model st3)
    as (turns & _ & Hcs & _).
  exists turns.
  destruct (handle_response svc settings fuel next_response model st3)
    as [[r|e|] s]; cbn [fst snd] in Hcs |- *;
    by rewrite Hcs, Hst3, <- !app_assoc.
Qed.

(** C5. In a tool-call round that yields a result part, the function
    call appended in the model turn and the function response appended
    in the tool turn carry the same call identifier, that of the
    backend's function call; when the backend gave none, both carry
    [None]. *)
Theorem C5_call_id_preserved svc settings fuel response model st part
    function_obj rp :
  find_function_call_part response = Some part ->
  function_call part = Some function_obj ->
  fst (tool_result_part svc settings function_obj (fc_id function_obj) st)
  = Ok (Some rp) ->
  exists model_call tool_result rest,
    st_contents (snd (handle_response svc settings fuel response model st)) =
    st_contents st
    ++ [ {| role := Some "model";
            parts := Some [Part_of_function_call model_call] |};
         {| role := Some "tool";
            parts := Some [Part_of_function_response tool_result] |} ]
    ++ rest
    /\ fc_id model_call = fr_id tool_result
    /\ fc_id model_call = fc_id function_obj
    /\ (fc_id function_obj = None ->
        fc_id model_call = None /\ fr_id tool_result = None).
Proof.
  intros Hf Hc Ht.
  destruct (handle_response_round_contents svc settings fuel response model st
              part function_obj rp Hf Hc Ht) as [rest Hcs].
  destruct (tool_result_part_Some _ _ _ _ _ _ Ht)
    as (args & out & _ & _ & _ & ->).
  eexists _, _, rest. split; [exact Hcs|]. simpl.
  by split_and!.
Qed.

Lemma C5_call_id_preserved_witness :
  exists model_call tool_result rest,
    st_contents
      (snd (handle_response scenario_C sample_settings 3
              (response_of_parts [raw_denver_part] None) "gemini-2.5-pro"
              denver_state)) =
    st_contents denver_state
    ++ [ {| role := Some "model";
            parts := Some [Part_of_function_call model_call] |};
         {| role := Some "tool";
            parts := Some [Part_of_function_response tool_result] |} ]
    ++ rest
    /\ fc_id model_call = fr_id tool_result
    /\ fc_id model_call = fc_id denver_call
    /\ (fc_id denver_call = None ->
        fc_id model_call = None /\ fr_id tool_result = None).
Proof.
  apply (C5_call_id_preserved scenario_C sample_settings 3
           (response_of_parts [raw_denver_part] None) "gemini-2.5-pro"
           denver_state raw_denver_part denver_call
           (weather_result_part (Some "abc") (Some (forecast_text denver_period)))).
  - reflexivity.
  - reflexivity.
  - vm_compute. reflexivity.
Defined.

(** C6. In a tool-call round that yields a result part, the history
    grows by two turns and keeps its earlier turns: a turn of role
    model whose one part holds nothing but a function call rebuilt from
    the name, the arguments and the identifier of the backend's, and a
    turn of role tool whose one part holds the function response, with
    the tool's output under the key content. *)
Theorem C6_sanitized_turns_appended svc settings fuel response model st part
    function_obj rp :
  find_function_call_part response = Some part ->
  function_call part = Some function_obj ->
  fst (tool_result_part svc settings function_obj (fc_id function_obj) st)
  = Ok (Some rp) ->
  exists args result_output rest,
    fc_args function_obj = Some args
    /\ fst (get_weather_from_city_state svc (args !! "city") (args !! "state")
             (google_api_key settings) (noaa_user_agent settings) st)
       = Ok result_output
    /\ st_contents (snd (handle_response svc settings fuel response model st)) =
       st_contents st
       ++ [ {| role := Some "model";
               parts := Some
                 [ {| text := None;
                      function_call := Some
                        {| fc_id := fc_id function_obj;
                           fc_args := fc_args function_obj;
                           fc_name := fc_name function_obj |};
                      function_response := None;
                      thought := None;
                      thought_signature := None |} ] |};
            {| role := Some "tool";
               parts := Some
                 [ {| text := None;
                      function_call := None;
                      function_response := Some
                        {| fr_id := fc_id function_obj;
                           fr_name := Some "get_weather_from_city_state";
                           fr_response := Some {[ "content" := result_output ]} |};
                      thought := None;
                      thought_signature := None |} ] |} ]
       ++ rest.
Proof.
  intros Hf Hc Ht.
  destruct (handle_response_round_contents svc settings fuel response model st
              part function_obj rp Hf Hc Ht) as [rest Hcs].
  destruct (tool_result_part_Some _ _ _ _ _ _ Ht)
    as (args & out & _ & Hargs & Hout & ->).
  exists args, out, rest. split_and!; try done.
Qed.

Lemma C6_sanitized_turns_appended_witness :
  exists args result_output rest,
    fc_args denver_call = Some args
    /\ fst (get_weather_from_city_state scenario_C (args !! "city") (args !! "state")
             (google_api_key sample_settings) (noaa_user_agent sample_settings)
             denver_state)
       = Ok result_output
    /\ st_contents
         (snd (handle_response scenario_C sample_settings 3
                 (response_of_parts [raw_denver_part] None) "gemini-2.5-pro"
                 denver_state)) =
       st_contents denver_state
       ++ [ {| role := Some "model";
               parts := Some
                 [ {| text := None;
                      function_call := Some
                        {| fc_id := fc_id denver_call;
                           fc_args := fc_args denver_call;
                           fc_name := fc_name denver_call |};
                      function_response := None;
                      thought := None;
                      thought_signature := None |} ] |};
            {| role := Some "tool";
               parts := Some
                 [ {| text := None;
                      function_call := None;
                      function_response := Some
                        {| fr_id := fc_id denver_call;
                           fr_name := Some "get_weather_from_city_state";
                           fr_response := Some {[ "content" := result_output ]} |};
                      thought := None;
                      thought_signature := None |} ] |} ]
       ++ rest.
Proof.
  apply (C6_sanitized_turns_appended scenario_C sample_settings 3
           (response_of_parts [raw_denver_part] None) "gemini-2.5-pro"
           denver_state raw_denver_part denver_call
           (weather_result_part (Some "abc") (Some (forecast_text denver_period)))).
  - reflexivity.
  - reflexivity.
  - vm_compute. reflexivity.
Defined.

(** Scenario C in full: the raw part carried a thought flag and a
    signature; the history holds the rebuilt call, the forecast under
    content, and nothing else. *)
Example scenario_C_history :
  st_contents
    (snd (handle_response scenario_C sample_settings 3
            (response_of_parts [raw_denver_part] None) "gemini-2.5-pro"
            denver_state))
  = [ user_turn denver_query;
      {| role := Some "model";
         parts := Some [Part_of_function_call denver_call] |};
      {| role := Some "tool";
         parts := Some
           [Part_of_function_response
              {| fr_id := Some "abc";
                 fr_name := Some "get_weather_from_city_state";
                 fr_response := Some
                   {[ "content" := Some (forecast_text denver_period) ]} |}] |} ]
  /\ fst (handle_response scenario_C sample_settings 3
            (response_of_parts [raw_denver_part] None) "gemini-2.5-pro"
            denver_state)
     = Ok (Some clear_skies).
Proof. split; vm_compute; reflexivity. Qed.

(** ** The final answer (C7) *)

(** C7. On a response without function call the loop stops at once and
    changes nothing: it returns the text of the response when there is
    one and it is not empty, and [None] otherwise; and whatever
    [generate] returns is [None] or a string that is not empty. *)
Theorem C7_final_answer svc settings fuel response model st :
  find_function_call_part response = None ->
  handle_response svc settings fuel response model st =
  (Ok (if truthy (response_text response) then response_text response else None),
   st)
  /\ (forall t, response_text response = Some t -> t <> "" ->
        fst (handle_response svc settings fuel response model st) = Ok (Some t))
  /\ (response_text response = None \/ response_text response = Some "" ->
        fst (handle_response svc settings fuel response model st) = Ok None)
  /\ (forall fuel' user_query st0 out,
        fst (generate svc settings fuel' user_query st0) = Ok out ->
        out = None \/ exists t, out = Some t /\ t <> "").
Proof.
  intros Hf. rewrite (handle_response_final svc settings fuel response model st Hf).
  split_and!; [reflexivity| | |].
  - intros t -> Ht. simpl. by destruct (String.eqb_spec t "").
  - by intros [-> | ->].
  - intros fuel' user_query st0 out Hout.
    destruct (generate_post_holds svc settings fuel' user_query st0)
      as (_ & _ & Hne & _).
    rewrite Hout in Hne. destruct out as [t|]; [right|by left].
    exists t. split; [reflexivity|]. by intros ->.
Qed.

Lemma C7_final_answer_witness :
  handle_response scenario_C sample_settings 0 (text_response "Sunny, 72F")
    "gemini-2.5-pro" denver_state =
  (Ok (if truthy (response_text (text_response "Sunny, 72F"))
       then response_text (text_response "Sunny, 72F") else None),
   denver_state)
  /\ (forall t, response_text (text_response "Sunny, 72F") = Some t -> t <> "" ->
        fst (handle_response scenario_C sample_settings 0
               (text_response "Sunny, 72F") "gemini-2.5-pro" denver_state)
        = Ok (Some t))
  /\ (response_text (text_response "Sunny, 72F") = None
      \/ response_text (text_response "Sunny, 72F") = Some "" ->
        fst (handle_response scenario_C sample_settings 0
               (text_response "Sunny, 72F") "gemini-2.5-pro" denver_state)
        = Ok None)
  /\ (forall fuel' user_query st0 out,
        fst (generate scenario_C sample_settings fuel' user_query st0) = Ok out ->
        out = None \/ exists t, out = Some t /\ t <> "").
Proof.
  apply (C7_final_answer scenario_C sample_settings 0
           (text_response "Sunny, 72F") "gemini-2.5-pro" denver_state).
  reflexivity.
Defined.

(** An empty text counts as no text. *)
Example empty_text_is_no_answer :
  fst (handle_response scenario_C sample_settings 0 (text_response "")
         "gemini-2.5-pro" denver_state) = Ok None.
Proof. reflexivity. Qed.

(** ** The verdict of a screening (C8) *)

(** C8. Both screening entry points return false exactly on the
    verdict MATCH_FOUND and true on every other verdict, as a normal
    return; only a failure of the service call itself raises. *)
Theorem C8_screen_verdict svc screened project loc template st :
  fst (check_prompt_with_model_armor svc screened project loc template st) =
  match sanitize_user_prompt svc (model_armor_endpoint st loc)
          (template_path project loc template) screened with
  | Returns MATCH_FOUND => Ok false
  | Returns _ => Ok true
  | Throws e => Raise e
  end
  /\ fst (check_response_with_model_armor svc screened project loc template st) =
     match sanitize_model_response svc (model_armor_endpoint st loc)
             (template_path project loc template) screened with
     | Returns MATCH_FOUND => Ok false
     | Returns _ => Ok true
     | Throws e => Raise e
     end.
Proof.
  rewrite check_prompt_with_model_armor_eq, check_response_with_model_armor_eq.
  cbv zeta. split.
  - by destruct (sanitize_user_prompt svc _ _ _) as [[]|].
  - by destruct (sanitize_model_response svc _ _ _) as [[]|].
Qed.

(** ** The chat endpoint (C9) *)

(** C9. The endpoint answers a text of [generate] with that text and
    blocked false, and every [None] of [generate], whatever its cause,
    with the one blocked response; an exception becomes a server
    error. *)
Theorem C9_chat_response svc settings fuel request st :
  fst (chat svc settings fuel request st) =
  match fst (generate svc settings fuel (message request) st) with
  | Ok (Some t) =>
      Ok {| response := Some t; blocked := false; blocked_reason := None |}
  | Ok None =>
      Ok {| response := None;
            blocked := true;
            blocked_reason :=
              Some "Response was blocked by Model Armor for safety reasons" |}
  | Raise e =>
      Raise (Exn (HTTPException 500)
               ("An error occurred while processing your request: " +:+ exn_str e))
  | OutOfFuel => OutOfFuel
  end
  /\ snd (chat svc settings fuel request st) =
     snd (generate svc settings fuel (message request) st).
Proof.
  unfold chat. unfold_monad.
  by destruct (generate svc settings fuel (message request) st)
    as [[[t|]|e|] st'].
Qed.

(** A blocked prompt, a blocked answer, a tool that is not there, a
    backend that fails and an empty answer all reach the user as the
    same blocked response; the answer of scenario C reaches them as
    it is. *)
Example null_results_look_alike :
  fst (chat scenario_A sample_settings 5 denver_request idle_state)
  = Ok blocked_response
  /\ fst (chat scenario_E sample_settings 5 denver_request idle_state)
     = Ok blocked_response
  /\ fst (chat (scenario_with_backend unknown_tool_backend) sample_settings 5
            denver_request idle_state)
     = Ok blocked_response
  /\ fst (chat (scenario_with_backend failing_backend) sample_settings 5
            denver_request idle_state)
     = Ok blocked_response
  /\ fst (chat (scenario_with_backend silent_backend) sample_settings 5
            denver_request idle_state)
     = Ok blocked_response
  /\ fst (chat scenario_C sample_settings 5 denver_request idle_state)
     = Ok {| response := Some clear_skies; blocked := false;
             blocked_reason := None |}.
Proof. split_and!; vm_compute; reflexivity. Qed.

(** ** What the backend is sent (C10) *)

Lemma string_length_app (s1 s2 : string) :
  String.length (s1 +:+ s2) = (String.length s1 + String.length s2)%nat.
Proof. induction s1 as [|c s1 IH]; simpl; [reflexivity|by rewrite IH]. Qed.

Lemma query_is_not_enhanced_query (user_query : string) :
  user_query <> system_instructions +:+ user_query.
Proof.
  intros H. apply (f_equal String.length) in H.
  rewrite string_length_app in H.
  assert (0 < String.length system_instructions)%nat
    by (vm_compute; lia).
  lia.
Qed.

(** C10. Every history [generate] sends to the backend opens with one
    user turn whose single part is the text of the raw query, followed
    by turns that hold no text, and by none on the initial call; no
    call carries a system instruction; the raw query is not the query
    behind the instructions that [generate] composes; and the initial
    call is made whenever the prompt passes the screening. *)
Theorem C10_raw_query_only svc settings fuel user_query st (k : nat) m cs cfg :
  backend_calls
    (new_events st (snd (generate svc settings fuel user_query st))) !! k
  = Some (m, cs, cfg) ->
  (exists extra,
     cs = {| role := Some "user";
             parts := Some
               [ {| text := Some user_query;
                    function_call := None;
                    function_response := None;
                    thought := None;
                    thought_signature := None |} ] |} :: extra
     /\ Forall no_text_turn extra
     /\ (k = 0%nat -> extra = []))
  /\ system_instruction cfg = None
  /\ user_query <> system_instructions +:+ user_query
  /\ (fst (check_prompt_with_model_armor svc user_query (project_id settings)
             (model_armor_location settings) (model_armor_template_id settings)
             st) = Ok true ->
      backend_calls
        (new_events st (snd (generate svc settings fuel user_query st)))
        !! 0%nat
      = Some (model_name settings, [user_turn user_query],
              generate_content_config settings)).
Proof.
  intros Hk.
  destruct (generate_post_holds svc settings fuel user_query st)
    as (evs & Htr & _ & Hfirst & Hcalls).
  rewrite (new_events_app _ _ _ Htr) in Hk |- *.
  destruct (Hcalls k m cs cfg Hk) as (_ & _ & Hsys & extra & -> & Hnt & H0).
  split_and!; try done.
  - by exists extra.
  - apply query_is_not_enhanced_query.
Qed.

Lemma C10_raw_query_only_witness :
  (exists extra,
     [user_turn denver_query]
     = {| role := Some "user";
          parts := Some
            [ {| text := Some denver_query;
                 function_call := None;
                 function_response := None;
                 thought := None;
                 thought_signature := None |} ] |} :: extra
     /\ Forall no_text_turn extra
     /\ (0%nat = 0%nat -> extra = []))
  /\ system_instruction (generate_content_config sample_settings) = None
  /\ denver_query <> system_instructions +:+ denver_query
  /\ (fst (check_prompt_with_model_armor scenario_C denver_query
             (project_id sample_settings) (model_armor_location sample_settings)
             (model_armor_template_id sample_settings) idle_state) = Ok true ->
      backend_calls
        (new_events idle_state
           (snd (generate scenario_C sample_settings 3 denver_query idle_state)))
        !! 0%nat
      = Some (model_name sample_settings, [user_turn denver_query],
              generate_content_config sample_settings)).
Proof.
  apply (C10_raw_query_only scenario_C sample_settings 3 denver_query idle_state
           0 "gemini-2.5-pro" [user_turn denver_query]
           (generate_content_config sample_settings)).
  vm_compute. reflexivity.
Defined.

(** The two backend calls of scenario C: the raw query alone, then the
    raw query with the two turns of the tool round. *)
Example scenario_C_backend_calls :
  backend_calls
    (new_events idle_state
       (snd (generate scenario_C sample_settings 3 denver_query idle_state)))
  = [ ("gemini-2.5-pro", [user_turn denver_query],
       generate_content_config sample_settings);
      ("gemini-2.5-pro",
       [user_turn denver_query;
        sanitized_model_turn denver_call (Some "abc");
        tool_turn (weather_result_part (Some "abc")
                     (Some (forecast_text denver_period)))],
       second_round_config) ].
Proof. vm_compute. reflexivity. Qed.

(** * Further properties *)

(** ** The weather chain (weather.py) *)

Section WeatherChain.

Variable svc : Services.

Lemma get_lat_long_from_city_eq city state key st :
  get_lat_long_from_city svc city state key st =
  (Ok match gmaps_geocode svc key (geocode_address city state) with
      | Returns (location :: _) => Some location
      | _ => None
      end,
   with_trace st [EvGeocode (geocode_address city state)]).
Proof.
  unfold get_lat_long_from_city, geocode_address. unfold_monad.
  rewrite external_eq.
  by destruct (gmaps_geocode svc key _) as [[|location rest]|e].
Qed.

Lemma get_grid_points_eq coordinates ua st :
  get_grid_points svc coordinates ua st =
  (Ok match noaa_points svc coordinates ua with
      | Returns grid_data => Some grid_data
      | Throws _ => None
      end,
   with_trace st [EvNoaaPoints coordinates]).
Proof.
  unfold get_grid_points. unfold_monad. rewrite external_eq.
  by destruct (noaa_points svc coordinates ua) as [[[wfo x] y]|e].
Qed.

Lemma invalid_grid_guard wfo grid_x grid_y :
  String.eqb wfo "" || (grid_x =? 0) || (grid_y =? 0) = true
  <-> invalid_grid wfo grid_x grid_y.
Proof.
  unfold invalid_grid.
  rewrite !orb_true_iff, String.eqb_eq, !Z.eqb_eq. tauto.
Qed.

Lemma get_todays_forecast_invalid wfo grid_x grid_y ua st :
  invalid_grid wfo grid_x grid_y ->
  get_todays_forecast svc wfo grid_x grid_y ua st = (Ok None, st).
Proof.
  intros H. apply invalid_grid_guard in H.
  unfold get_todays_forecast. by rewrite H.
Qed.

Lemma get_todays_forecast_valid wfo grid_x grid_y ua st :
  ~ invalid_grid wfo grid_x grid_y ->
  get_todays_forecast svc wfo grid_x grid_y ua st =
  (Ok match noaa_forecast svc wfo grid_x grid_y ua with
      | Returns (today_forecast :: _) => Some (forecast_text today_forecast)
      | _ => None
      end,
   with_trace st [EvNoaaForecast wfo grid_x grid_y]).
Proof.
  intros H. rewrite <- invalid_grid_guard in H.
  apply not_true_is_false in H.
  unfold get_todays_forecast. rewrite H. unfold_monad. rewrite external_eq.
  by destruct (noaa_forecast svc wfo grid_x grid_y ua) as [[|p rest]|e].
Qed.

Lemma invalid_grid_dec wfo grid_x grid_y :
  invalid_grid wfo grid_x grid_y \/ ~ invalid_grid wfo grid_x grid_y.
Proof.
  destruct (String.eqb wfo "" || (grid_x =? 0) || (grid_y =? 0)) eqn:E.
  - left. by apply invalid_grid_guard.
  - right. rewrite <- invalid_grid_guard. by rewrite E.
Qed.

(** The run of the whole chain, step by step. *)
Lemma get_weather_from_city_state_eq city state key ua st :
  get_weather_from_city_state svc city state key ua st =
  let address := geocode_address city state in
  match gmaps_geocode svc key address with
  | Returns (location :: _) =>
      match noaa_points svc location ua with
      | Returns (wfo, grid_x, grid_y) =>
          get_todays_forecast svc wfo grid_x grid_y ua
            (with_trace st [EvWeatherTool city state; EvGeocode address;
                            EvNoaaPoints location])
      | Throws _ =>
          (Ok None,
           with_trace st [EvWeatherTool city state; EvGeocode address;
                          EvNoaaPoints location])
      end
  | _ => (Ok None, with_trace st [EvWeatherTool city state; EvGeocode address])
  end.
Proof.
  unfold get_weather_from_city_state.
  unfold bind at 1. rewrite emit_with_trace.
  unfold bind at 1. rewrite get_lat_long_from_city_eq, with_trace_with_trace.
  cbv zeta. simpl app.
  destruct (gmaps_geocode svc key _) as [[|location rest]|e]; try reflexivity.
  unfold bind at 1. rewrite get_grid_points_eq, with_trace_with_trace. simpl app.
  by destruct (noaa_points svc location ua) as [[[wfo x] y]|e].
Qed.

End WeatherChain.

(** The run of the weather tool opens with its geocoding request. *)
Lemma weather_tool_requests_start svc city state key ua st :
  exists result_output more,
    get_weather_from_city_state svc city state key ua st =
    (Ok result_output,
     with_trace st
       (EvWeatherTool city state :: EvGeocode (geocode_address city state)
        :: more)).
Proof.
  rewrite get_weather_from_city_state_eq. cbv zeta.
  destruct (gmaps_geocode svc key _) as [[|location rest]|e];
    try (by eexists None, []).
  destruct (noaa_points svc location ua) as [[[wfo x] y]|e];
    [|by eexists None, [_]].
  destruct (invalid_grid_dec wfo x y) as [Hbad|Hgood].
  - rewrite get_todays_forecast_invalid by exact Hbad. by eexists None, [_].
  - rewrite get_todays_forecast_valid by exact Hgood.
    rewrite with_trace_with_trace. simpl app. by eexists _, [_; _].
Qed.

(** X1. Whatever the three services do, the weather tool returns
    normally, with a forecast or [None], and changes nothing but the
    trace: one geocoding request, then at most one grid request, then
    at most one forecast request. *)
Theorem weather_tool_returns_after_at_most_three_requests svc city state key ua st :
  exists result_output requests,
    get_weather_from_city_state svc city state key ua st =
    (Ok result_output,
     with_trace st
       (EvWeatherTool city state :: EvGeocode (geocode_address city state)
        :: requests))
    /\ (requests = []
        \/ (exists location, requests = [EvNoaaPoints location])
        \/ (exists location wfo grid_x grid_y,
              requests = [EvNoaaPoints location;
                          EvNoaaForecast wfo grid_x grid_y])).
Proof.
  rewrite get_weather_from_city_state_eq. cbv zeta.
  destruct (gmaps_geocode svc key _) as [[|location rest]|e];
    try (eexists None, []; split; [reflexivity|by left]).
  destruct (noaa_points svc location ua) as [[[wfo x] y]|e];
    [|eexists None, [_]; split; [reflexivity|right; left; by eexists]].
  destruct (invalid_grid_dec wfo x y) as [Hbad|Hgood].
  - rewrite get_todays_forecast_invalid by exact Hbad.
    eexists None, [_]. split; [reflexivity|right; left; by eexists].
  - rewrite get_todays_forecast_valid by exact Hgood.
    rewrite with_trace_with_trace. simpl app.
    eexists _, [_; _]. split; [reflexivity|].
    right; right. by eexists _, _, _, _.
Qed.

(** X2. The weather tool returns a forecast exactly when geocoding
    finds a place, the grid lookup for the first place found yields an
    office and two coordinates that are not empty or zero, and the
    forecast request yields a period; the forecast is the text of the
    first period. *)
Theorem weather_tool_forecast_iff svc city state key ua st forecast :
  fst (get_weather_from_city_state svc city state key ua st) = Ok (Some forecast)
  <-> exists location others wfo grid_x grid_y today later,
        gmaps_geocode svc key (geocode_address city state)
        = Returns (location :: others)
        /\ noaa_points svc location ua = Returns (wfo, grid_x, grid_y)
        /\ wfo <> "" /\ grid_x <> 0 /\ grid_y <> 0
        /\ noaa_forecast svc wfo grid_x grid_y ua = Returns (today :: later)
        /\ forecast = forecast_text today.
Proof.
  rewrite get_weather_from_city_state_eq. cbv zeta. split.
  - destruct (gmaps_geocode svc key _) as [[|location rest]|e] eqn:Hg;
      try (simpl; discriminate).
    destruct (noaa_points svc location ua) as [[[wfo x] y]|e] eqn:Hp;
      try (simpl; discriminate).
    destruct (invalid_grid_dec wfo x y) as [Hbad|Hgood].
    { rewrite get_todays_forecast_invalid by exact Hbad. simpl. discriminate. }
    rewrite get_todays_forecast_valid by exact Hgood. simpl.
    destruct (noaa_forecast svc wfo x y ua) as [[|today later]|e] eqn:Hf;
      try discriminate.
    intros [= <-]. exists location, rest, wfo, x, y, today, later.
    unfold invalid_grid in Hgood. split_and!; try done; intros ->; tauto.
  - intros (location & others & wfo & x & y & today & later
            & -> & -> & Hw & Hx & Hy & Hf & ->).
    rewrite get_todays_forecast_valid by (unfold invalid_grid; tauto).
    by rewrite Hf.
Qed.

(** X3. When geocoding raises or finds nothing, the weather tool
    returns [None] and asks NOAA nothing. *)
Theorem weather_tool_stops_after_failed_geocoding svc city state key ua st :
  (exists e, gmaps_geocode svc key (geocode_address city state) = Throws e)
  \/ gmaps_geocode svc key (geocode_address city state) = Returns [] ->
  get_weather_from_city_state svc city state key ua st =
  (Ok None,
   with_trace st [EvWeatherTool city state;
                  EvGeocode (geocode_address city state)]).
Proof.
  intros H. rewrite get_weather_from_city_state_eq. cbv zeta.
  by destruct H as [[e ->] | ->].
Qed.

Lemma weather_tool_stops_after_failed_geocoding_witness :
  get_weather_from_city_state scenario_D (Some "Denver") (Some "CO")
    "maps-key" "WeatherChatbot/1.0" idle_state =
  (Ok None,
   with_trace idle_state
     [EvWeatherTool (Some "Denver") (Some "CO");
      EvGeocode (geocode_address (Some "Denver") (Some "CO"))]).
Proof.
  apply (weather_tool_stops_after_failed_geocoding scenario_D (Some "Denver")
           (Some "CO") "maps-key" "WeatherChatbot/1.0" idle_state).
  right. reflexivity.
Defined.

(** X4. When the grid lookup raises, or answers with an empty office
    or with a coordinate that is zero, the weather tool returns [None]
    and makes no forecast request: grid point 0 counts as missing. *)
Theorem weather_tool_stops_after_unusable_grid svc city state key ua st
    location others :
  gmaps_geocode svc key (geocode_address city state) = Returns (location :: others) ->
  (exists e, noaa_points svc location ua = Throws e)
  \/ (exists wfo grid_x grid_y,
        noaa_points svc location ua = Returns (wfo, grid_x, grid_y)
        /\ invalid_grid wfo grid_x grid_y) ->
  get_weather_from_city_state svc city state key ua st =
  (Ok None,
   with_trace st [EvWeatherTool city state;
                  EvGeocode (geocode_address city state);
                  EvNoaaPoints location]).
Proof.
  intros Hg H. rewrite get_weather_from_city_state_eq. cbv zeta. rewrite Hg.
  destruct H as [[e ->] | (wfo & x & y & -> & Hbad)]; [reflexivity|].
  by rewrite get_todays_forecast_invalid.
Qed.

Lemma weather_tool_stops_after_unusable_grid_witness :
  get_weather_from_city_state scenario_zero_grid (Some "Denver") (Some "CO")
    "maps-key" "WeatherChatbot/1.0" idle_state =
  (Ok None,
   with_trace idle_state
     [EvWeatherTool (Some "Denver") (Some "CO");
      EvGeocode (geocode_address (Some "Denver") (Some "CO"));
      EvNoaaPoints denver_location]).
Proof.
  apply (weather_tool_stops_after_unusable_grid scenario_zero_grid
           (Some "Denver") (Some "CO") "maps-key" "WeatherChatbot/1.0"
           idle_state denver_location []).
  - reflexivity.
  - right. exists "AFG", 0, 117. split; [reflexivity|].
    right. left. reflexivity.
Defined.

(** ** The shape of a run of the response loop (core.py) *)

Lemma weather_requests_no_backend_call (reqs : list Event) :
  Forall (fun ev => is_weather_request ev = true) reqs ->
  backend_calls reqs = [] /\ tool_calls reqs = []
  /\ Forall (fun ev => is_screening_call ev = false) reqs.
Proof.
  induction 1 as [|ev reqs Hev _ (IH1 & IH2 & IH3)]; [done|].
  destruct ev; try discriminate; simpl; by split_and!; try constructor.
Qed.

Lemma get_weather_from_city_state_requests svc city state key ua st :
  exists result_output reqs,
    get_weather_from_city_state svc city state key ua st =
    (Ok result_output, with_trace st (EvWeatherTool city state :: reqs))
    /\ Forall (fun ev => is_weather_request ev = true) reqs.
Proof.
  rewrite get_weather_from_city_state_eq. cbv zeta.
  destruct (gmaps_geocode svc key _) as [[|location rest]|e];
    try (eexists None, [_]; split; [reflexivity|by repeat constructor]).
  destruct (noaa_points svc location ua) as [[[wfo x] y]|e];
    [|eexists None, [_; _]; split; [reflexivity|by repeat constructor]].
  destruct (invalid_grid_dec wfo x y) as [Hbad|Hgood].
  - rewrite get_todays_forecast_invalid by exact Hbad.
    eexists None, [_; _]. split; [reflexivity|by repeat constructor].
  - rewrite get_todays_forecast_valid by exact Hgood.
    rewrite with_trace_with_trace. simpl app.
    eexists _, [_; _; _]. split; [reflexivity|by repeat constructor].
Qed.

(** The tool block either yields nothing and does nothing, or has run
    the weather tool once. *)
Lemma tool_result_part_shape svc settings function_obj call_id st :
  tool_result_part svc settings function_obj call_id st = (Ok None, st)
  \/ exists args result_output reqs,
       fc_name function_obj = Some weather_tool_name
       /\ fc_args function_obj = Some args
       /\ tool_result_part svc settings function_obj call_id st =
          (Ok (Some (weather_result_part call_id result_output)),
           with_trace st
             (EvWeatherTool (args !! "city") (args !! "state") :: reqs))
       /\ Forall (fun ev => is_weather_request ev = true) reqs.
Proof.
  rewrite tool_result_part_eq.
  destruct (fc_name function_obj) as [name|]; [|by left].
  destruct (fc_args function_obj) as [args|]; [|by left].
  case_bool_decide as Hn; [subst name|by left].
  destruct (get_weather_from_city_state_requests svc (args !! "city")
              (args !! "state") (google_api_key settings)
              (noaa_user_agent settings) st) as (out & reqs & -> & Hreqs).
  right. by exists args, out, reqs.
Qed.

Section LoopShape.

Variable svc : Services.
Variable settings : Settings.

Lemma loop_shape_stop st (r : Outcome (option string)) : loop_shape st (r, st).
Proof.
  exists [], []. simpl. rewrite !app_nil_r, drop_0.
  split_and!; try done. by destruct st as [cs [] cl tr].
Qed.

Lemma loop_shape_round model st city state reqs function_obj result_part res :
  Forall (fun ev => is_weather_request ev = true) reqs ->
  let st2 := next_round_state (with_trace st (EvWeatherTool city state :: reqs))
               function_obj result_part in
  let st3 := with_trace st2 [next_round_call model st2] in
  loop_shape st3 res ->
  loop_shape st res.
Proof.
  intros Hreqs st2 st3
    (turns & evs & Hcs & Htr & Hmt & Hlen & Htools & Hscr & Hcfg & Hcalls).
  destruct (weather_requests_no_backend_call reqs Hreqs) as (Hb & Ht & Hs).
  exists ([sanitized_model_turn function_obj (fc_id function_obj);
           tool_turn result_part] ++ turns),
         ((EvWeatherTool city state :: reqs)
          ++ [next_round_call model st2] ++ evs).
  rewrite Hcs, Htr, Hcfg. simpl. rewrite <- !app_assoc. simpl.
  rewrite backend_calls_app, tool_calls_app, Hb, Ht. simpl.
  split_and!; try done.
  - lia.
  - lia.
  - constructor; [done|]. apply Forall_app. split; [exact Hs|].
    by constructor.
  - unfold with_tools. simpl. by rewrite drop_drop.
  - intros [|k] m cs cfg Hk; simpl in Hk.
    + injection Hk as <- <- <-. rewrite !length_app. simpl.
      split; [reflexivity|lia].
    + destruct (Hcalls k m cs cfg Hk) as (-> & Hl).
      unfold with_tools. simpl. rewrite drop_drop. split; [reflexivity|].
      rewrite Hl. simpl. rewrite !length_app. simpl. lia.
Qed.

Lemma handle_response_shape fuel :
  forall response model st,
    loop_shape st (handle_response svc settings fuel response model st).
Proof.
  induction fuel as [|fuel IH]; intros response model st.
  all: destruct (find_function_call_part response) as [part|] eqn:Hf;
         [|rewrite handle_response_final by exact Hf; apply loop_shape_stop].
  all: destruct (find_function_call_part_Some _ _ Hf) as [fc Hc].
  all: destruct (tool_result_part_shape svc settings fc (fc_id fc) st)
         as [Ht | (args & out & reqs & _ & _ & Ht & Hreqs)];
         [rewrite (handle_response_no_result _ _ _ _ _ _ _ _ _ Hf Hc Ht);
          apply loop_shape_stop|].
  all: rewrite (handle_response_round _ _ _ _ _ _ _ _ _ _ Hf Hc Ht); cbv zeta.
  all: destruct (generate_content svc model _ _) as [next_response|e].
  all: try (apply (loop_shape_round model st (args !! "city") (args !! "state")
                     reqs fc (weather_result_part (fc_id fc) out) _ Hreqs);
            apply loop_shape_stop).
  apply (loop_shape_round model st (args !! "city") (args !! "state")
           reqs fc (weather_result_part (fc_id fc) out) _ Hreqs).
  match goal with |- loop_shape ?s _ => specialize (IH next_response model s) end.
  destruct (handle_response svc settings fuel next_response model _)
    as [[r|e|] s] eqn:E; exact IH.
Qed.

End LoopShape.


(** X6. A run of the response loop keeps the turns the history had and
    appends pairs of a model turn and a tool turn, one pair for each
    call it makes to the backend. *)
Theorem response_loop_appends_turn_pairs svc settings fuel response model st :
  exists turns,
    st_contents (snd (handle_response svc settings fuel response model st))
    = st_contents st ++ turns
    /\ model_tool_turns turns
    /\ length turns =
       (2 * length
              (backend_calls
                 (new_events st
                    (snd (handle_response svc settings fuel response model st)))))%nat.
Proof.
  destruct (handle_response_shape svc settings fuel response model st)
    as (turns & evs & Hcs & Htr & Hmt & Hlen & _).
  exists turns. by rewrite (new_events_app _ _ _ Htr).
Qed.

(** X7. In a run of the response loop the weather tool runs as often as
    the backend is called: each run of the tool is reported to the
    backend, and the backend is not called again without one. *)
Theorem response_loop_one_tool_run_per_backend_call svc settings fuel response
    model st :
  length
    (tool_calls
       (new_events st (snd (handle_response svc settings fuel response model st))))
  = length
      (backend_calls
         (new_events st (snd (handle_response svc settings fuel response model st)))).
Proof.
  destruct (handle_response_shape svc settings fuel response model st)
    as (turns & evs & _ & Htr & _ & _ & Htools & _).
  by rewrite (new_events_app _ _ _ Htr).
Qed.

(** X8. The response loop calls Model Armor never and leaves its client
    as it was: screening is the business of [generate] alone. *)
Theorem response_loop_never_screens svc settings fuel response model st :
  Forall (fun ev => is_screening_call ev = false)
    (new_events st (snd (handle_response svc settings fuel response model st)))
  /\ st_model_armor_client
       (snd (handle_response svc settings fuel response model st))
     = st_model_armor_client st.
Proof.
  destruct (handle_response_shape svc settings fuel response model st)
    as (turns & evs & _ & Htr & _ & _ & _ & Hscr & _).
  destruct (handle_response_post svc settings fuel response model st)
    as (_ & _ & _ & _ & _ & Hcl & _).
  by rewrite (new_events_app _ _ _ Htr).
Qed.

(** X9. The response loop changes the configuration it was handed, and
    in its tools only: after a run that called the backend n times the
    configuration has lost its first n tools, for good, and every
    other setting is as before; the call of round k+1 carried it with
    k+1 tools less. *)
Theorem response_loop_changes_tools_only svc settings fuel response model st :
  st_config (snd (handle_response svc settings fuel response model st))
  = with_tools (st_config st)
      (drop
         (length
            (backend_calls
               (new_events st
                  (snd (handle_response svc settings fuel response model st)))))
         (tools (st_config st)))
  /\ (forall (k : nat) m cs cfg,
        backend_calls
          (new_events st
             (snd (handle_response svc settings fuel response model st))) !! k
        = Some (m, cs, cfg) ->
        cfg = with_tools (st_config st) (drop (S k) (tools (st_config st)))).
Proof.
  destruct (handle_response_shape svc settings fuel response model st)
    as (turns & evs & _ & Htr & _ & _ & _ & _ & Hcfg & Hcalls).
  rewrite (new_events_app _ _ _ Htr). split; [exact Hcfg|].
  intros k m cs cfg Hk. by destruct (Hcalls k m cs cfg Hk).
Qed.

(** The trace of a round that yields a result part: what the tool
    block did, the call of the backend, and what follows. *)
Lemma handle_response_round_trace svc settings fuel response model st part
    function_obj rp st1 :
  find_function_call_part response = Some part ->
  function_call part = Some function_obj ->
  tool_result_part svc settings function_obj (fc_id function_obj) st
  = (Ok (Some rp), st1) ->
  exists rest,
    st_trace (snd (handle_response svc settings fuel response model st)) =
    st_trace st1
    ++ next_round_call model (next_round_state st1 function_obj rp) :: rest.
Proof.
  intros Hf Hc Ht.
  rewrite (handle_response_round _ _ _ _ _ _ _ _ _ _ Hf Hc Ht). cbv zeta.
  set (st2 := next_round_state _ _ _).
  set (st3 := with_trace st2 _).
  destruct (generate_content svc model _ _) as [next_response|e];
    [|by exists []].
  destruct fuel as [|fuel]; [by exists []|].
  destruct (handle_response_post svc settings fuel next_response model st3)
    as (_ & evs & _ & _ & Htr & _).
  exists evs.
  destruct (handle_response svc settings fuel next_response model st3)
    as [[r|e|] s]; cbn [fst snd] in Htr |- *;
    rewrite Htr; simpl; by rewrite <- app_assoc.
Qed.

(** X10. A call of the weather tool that lacks the city is not turned
    down: the tool runs with [None] for the city and geocodes the
    address that starts with the word None. *)
Theorem missing_city_is_geocoded_as_None svc settings fuel response model st
    part function_obj args :
  find_function_call_part response = Some part ->
  function_call part = Some function_obj ->
  fc_name function_obj = Some weather_tool_name ->
  fc_args function_obj = Some args ->
  args !! "city" = None ->
  exists rest,
    new_events st (snd (handle_response svc settings fuel response model st))
    = EvWeatherTool None (args !! "state")
      :: EvGeocode ("None, " +:+ py_str (args !! "state") +:+ ", USA")
      :: rest.
Proof.
  intros Hf Hc Hname Hargs Hcity.
  pose proof (tool_result_part_eq svc settings function_obj (fc_id function_obj) st)
    as Ht.
  rewrite Hname, Hargs, Hcity in Ht.
  rewrite bool_decide_eq_true_2 in Ht by reflexivity.
  destruct (weather_tool_requests_start svc None (args !! "state")
              (google_api_key settings) (noaa_user_agent settings) st)
    as (out & more & Hw).
  rewrite Hw in Ht.
  destruct (handle_response_round_trace svc settings fuel response model st
              part function_obj _ _ Hf Hc Ht) as [rest Htr].
  eexists. apply new_events_app. rewrite Htr. simpl.
  rewrite <- app_assoc. reflexivity.
Qed.

Lemma missing_city_is_geocoded_as_None_witness :
  exists rest,
    new_events denver_state
      (snd (handle_response scenario_D sample_settings 1
              (response_of_parts [Part_of_function_call stateless_call] None)
              "gemini-2.5-pro" denver_state))
    = EvWeatherTool None (Some "CO") :: EvGeocode "None, CO, USA" :: rest.
Proof.
  exact (missing_city_is_geocoded_as_None scenario_D sample_settings 1
           (response_of_parts [Part_of_function_call stateless_call] None)
           "gemini-2.5-pro" denver_state
           (Part_of_function_call stateless_call) stateless_call
           {[ "state" := "CO" ]} eq_refl eq_refl eq_refl eq_refl eq_refl).
Defined.

(** ** The screenings around the loop (core.py, model_armor.py) *)

Lemma model_armor_endpoint_with_client st loc loc' :
  model_armor_endpoint (with_client st loc) loc' = model_armor_endpoint st loc.
Proof.
  unfold model_armor_endpoint, with_client.
  by destruct (st_model_armor_client st) eqn:E; simpl; rewrite ?E.
Qed.

Lemma model_armor_endpoint_same_client st st' loc :
  st_model_armor_client st = st_model_armor_client st' ->
  model_armor_endpoint st loc = model_armor_endpoint st' loc.
Proof. unfold model_armor_endpoint. by intros ->. Qed.

Lemma with_client_idle st loc :
  is_Some (st_model_armor_client st) -> with_client st loc = st.
Proof. unfold with_client. intros [c E]. by rewrite E. Qed.

Lemma with_client_is_Some st loc :
  is_Some (st_model_armor_client (with_client st loc)).
Proof. unfold with_client. by destruct (st_model_armor_client st) eqn:E; simpl; rewrite ?E. Qed.

(** The run of [generate], step by step. *)
Lemma generate_eq svc settings fuel user_query st :
  generate svc settings fuel user_query st =
  let st0 := with_trace
               (with_client (request_state settings st user_query)
                  (model_armor_location settings))
               [prompt_screening settings st user_query] in
  match sanitize_user_prompt svc
          (model_armor_endpoint st (model_armor_location settings))
          (prompt_template settings) user_query with
  | Throws e => (Raise e, st0)
  | Returns verdict =>
      if is_match_found verdict then (Ok None, st0)
      else
        let st1 := with_trace st0 [initial_call settings user_query] in
        match generate_content svc (model_name settings) [user_turn user_query]
                (generate_content_config settings) with
        | Throws _ => (Ok None, st1)
        | Returns initial_response =>
            match handle_response svc settings fuel initial_response
                    (model_name settings) st1 with
            | (Ok (Some final_text), s) =>
                let s' := with_trace s [response_screening settings st final_text] in
                match sanitize_model_response svc
                        (model_armor_endpoint st (model_armor_location settings))
                        (response_template settings) final_text with
                | Returns verdict' =>
                    (Ok (if is_match_found verdict' then None else Some final_text),
                     s')
                | Throws _ => (Ok None, s')
                end
            | (Ok None, s) => (Ok None, s)
            | (Raise _, s) => (Ok None, s)
            | (OutOfFuel, s) => (OutOfFuel, s)
            end
        end
  end.
Proof.
  unfold generate. unfold_monad.
  unfold set_contents, set_config; simpl.
  fold (request_state settings st user_query).
  rewrite check_prompt_with_model_armor_eq. cbv zeta.
  unfold prompt_screening, prompt_template, initial_call.
  replace (model_armor_endpoint (request_state settings st user_query)
             (model_armor_location settings))
    with (model_armor_endpoint st (model_armor_location settings))
    by reflexivity.
  destruct (sanitize_user_prompt svc _ _ _) as [verdict|e]; [|reflexivity].
  destruct (is_match_found verdict); simpl; [reflexivity|].
  unfold call_generate_content. unfold_monad. rewrite external_eq. simpl.
  rewrite with_client_contents, with_client_config. simpl.
  destruct (generate_content svc _ _ _) as [initial_response|e]; [|reflexivity].
  set (st1 := with_trace (with_trace _ _) _).
  destruct (handle_response_post svc settings fuel initial_response
              (model_name settings) st1)
    as (_ & _ & _ & _ & _ & Hcl & _ & He & _).
  destruct (handle_response svc settings fuel initial_response
              (model_name settings) st1) as [[[final_text|]|e|] s];
    try reflexivity.
  cbn [fst snd] in Hcl, He.
  destruct (String.eqb_spec final_text "") as [->|_]; [by destruct He|].
  rewrite check_response_with_model_armor_eq. cbv zeta.
  unfold response_screening, response_template.
  assert (Hsome : is_Some (st_model_armor_client s)).
  { rewrite Hcl. unfold st1. simpl. apply with_client_is_Some. }
  rewrite (with_client_idle s _ Hsome).
  replace (model_armor_endpoint s (model_armor_location settings))
    with (model_armor_endpoint st (model_armor_location settings)).
  2: { rewrite (model_armor_endpoint_same_client s st1) by exact Hcl.
       unfold st1. symmetry.
       apply (model_armor_endpoint_with_client
                (request_state settings st user_query)). }
  destruct (sanitize_model_response svc _ _ _) as [verdict'|e'];
    [|reflexivity].
  by destruct (is_match_found verdict').
Qed.

(** An exception of the prompt screening leaves [generate] as it is. *)
Lemma generate_prompt_screening_raises svc settings fuel user_query st e :
  sanitize_user_prompt svc
    (model_armor_endpoint st (model_armor_location settings))
    (prompt_template settings) user_query = Throws e ->
  fst (generate svc settings fuel user_query st) = Raise e.
Proof. intros H. rewrite generate_eq. cbv zeta. by rewrite H. Qed.

(** Once the prompt screening has answered, [generate] raises no more. *)
Lemma generate_catches_after_prompt_screening svc settings fuel user_query st
    verdict e :
  sanitize_user_prompt svc
    (model_armor_endpoint st (model_armor_location settings))
    (prompt_template settings) user_query = Returns verdict ->
  fst (generate svc settings fuel user_query st) <> Raise e.
Proof.
  intros H. rewrite generate_eq. cbv zeta. rewrite H.
  destruct (is_match_found verdict); [discriminate|].
  destruct (generate_content svc _ _ _) as [initial_response|e0];
    [|discriminate].
  destruct (handle_response svc settings fuel initial_response _ _)
    as [[[final_text|]|e0|] s]; try discriminate.
  destruct (sanitize_model_response svc _ _ _) as [verdict'|e0]; discriminate.
Qed.

(** A text that [generate] returns is not empty and was passed by the
    screening of answers. *)
Lemma generate_Some_response_verdict svc settings fuel user_query st final_text :
  fst (generate svc settings fuel user_query st) = Ok (Some final_text) ->
  final_text <> ""
  /\ exists verdict,
       sanitize_model_response svc
         (model_armor_endpoint st (model_armor_location settings))
         (response_template settings) final_text = Returns verdict
       /\ verdict <> MATCH_FOUND.
Proof.
  intros Hgen.
  destruct (generate_post_holds svc settings fuel user_query st)
    as (_ & _ & Hne & _).
  split; [intros ->; by rewrite Hgen in Hne|].
  revert Hgen. rewrite generate_eq. cbv zeta.
  destruct (sanitize_user_prompt svc _ _ _) as [verdict|e0]; [|discriminate].
  destruct (is_match_found verdict); [discriminate|].
  destruct (generate_content svc _ _ _) as [initial_response|e0];
    [|discriminate].
  destruct (handle_response svc settings fuel initial_response _ _)
    as [[[t|]|e0|] s]; try discriminate.
  destruct (sanitize_model_response svc _ _ t) as [verdict'|e0] eqn:Hr;
    [|discriminate].
  destruct (is_match_found verdict') eqn:Hv'; [discriminate|].
  simpl. intros [= <-]. exists verdict'. split; [exact Hr|].
  intros ->. discriminate.
Qed.


(** X12. A text that [generate] returns is not empty and has passed
    both screenings: Model Armor answered the prompt and this very
    text with a verdict other than MATCH_FOUND, and the screening of
    the text was the last call of the request. *)
Theorem generate_answer_passed_both_screenings svc settings fuel user_query st
    final_text :
  fst (generate svc settings fuel user_query st) = Ok (Some final_text) ->
  final_text <> ""
  /\ (exists verdict,
        sanitize_user_prompt svc
          (model_armor_endpoint st (model_armor_location settings))
          (prompt_template settings) user_query = Returns verdict
        /\ verdict <> MATCH_FOUND)
  /\ (exists verdict,
        sanitize_model_response svc
          (model_armor_endpoint st (model_armor_location settings))
          (response_template settings) final_text = Returns verdict
        /\ verdict <> MATCH_FOUND)
  /\ exists evs,
       new_events st (snd (generate svc settings fuel user_query st))
       = prompt_screening settings st user_query
         :: initial_call settings user_query
         :: evs ++ [response_screening settings st final_text].
Proof.
  rewrite generate_eq. cbv zeta.
  destruct (sanitize_user_prompt svc _ _ _) as [verdict|e0]; [|discriminate].
  destruct (is_match_found verdict) eqn:Hv; [discriminate|].
  destruct (generate_content svc _ _ _) as [initial_response|e0];
    [|discriminate].
  set (st1 := with_trace (with_trace _ _) _).
  destruct (handle_response_post svc settings fuel initial_response
              (model_name settings) st1)
    as (_ & evs & _ & _ & Htr & _ & _ & He & _).
  destruct (handle_response svc settings fuel initial_response _ st1)
    as [[[t|]|e0|] s]; try discriminate.
  cbn [fst snd] in Htr, He.
  destruct (sanitize_model_response svc _ _ t) as [verdict'|e0] eqn:Hr;
    [|discriminate].
  destruct (is_match_found verdict') eqn:Hv'; [discriminate|].
  simpl. intros [= <-]. split_and!.
  - intros ->. by destruct He.
  - exists verdict. split; [reflexivity|]. intros ->. discriminate.
  - exists verdict'. split; [exact Hr|]. intros ->. discriminate.
  - exists evs. apply new_events_app. simpl. rewrite Htr. unfold st1. simpl.
    rewrite with_client_trace. simpl. by rewrite <- !app_assoc.
Qed.

Lemma generate_answer_passed_both_screenings_witness :
  clear_skies <> ""
  /\ (exists verdict,
        sanitize_user_prompt scenario_C
          (model_armor_endpoint idle_state (model_armor_location sample_settings))
          (prompt_template sample_settings) denver_query = Returns verdict
        /\ verdict <> MATCH_FOUND)
  /\ (exists verdict,
        sanitize_model_response scenario_C
          (model_armor_endpoint idle_state (model_armor_location sample_settings))
          (response_template sample_settings) clear_skies = Returns verdict
        /\ verdict <> MATCH_FOUND)
  /\ exists evs,
       new_events idle_state
         (snd (generate scenario_C sample_settings 3 denver_query idle_state))
       = prompt_screening sample_settings idle_state denver_query
         :: initial_call sample_settings denver_query
         :: evs ++ [response_screening sample_settings idle_state clear_skies].
Proof.
  apply (generate_answer_passed_both_screenings scenario_C sample_settings 3
           denver_query idle_state clear_skies).
  vm_compute. reflexivity.
Defined.

(** The trace of a run of [generate] opens with the screening of the
    prompt, and ends there unless the prompt passed. *)
Lemma generate_trace_opens_with_prompt_screening svc settings fuel user_query st :
  exists rest,
    new_events st (snd (generate svc settings fuel user_query st))
    = prompt_screening settings st user_query :: rest
    /\ (rest = []
        \/ exists verdict,
             sanitize_user_prompt svc
               (model_armor_endpoint st (model_armor_location settings))
               (prompt_template settings) user_query = Returns verdict
             /\ is_match_found verdict = false).
Proof.
  rewrite generate_eq. cbv zeta.
  set (st0 := with_client _ _).
  assert (Hst0 : st_trace st0 = st_trace st)
    by (unfold st0; by rewrite with_client_trace).
  assert (Hext : forall (r : Outcome (option string)) s extra,
            st_trace s = st_trace st0
              ++ prompt_screening settings st user_query :: extra ->
            new_events st (snd (r, s))
            = prompt_screening settings st user_query :: extra).
  { intros r s extra Hs. apply new_events_app. simpl. by rewrite Hs, Hst0. }
  destruct (sanitize_user_prompt svc _ _ _) as [verdict|e0];
    [|exists []; split; [by apply Hext|by left]].
  destruct (is_match_found verdict) eqn:Hv;
    [exists []; split; [by apply Hext|by left]|].
  assert (Hpass : exists verdict0, Returns verdict = Returns verdict0
                                   /\ is_match_found verdict0 = false)
    by (by exists verdict).
  destruct (generate_content svc _ _ _) as [initial_response|e0].
  2: { eexists. split; [|right; exact Hpass].
       apply Hext. simpl. by rewrite <- app_assoc. }
  set (st1 := with_trace (with_trace _ _) _).
  destruct (handle_response_post svc settings fuel initial_response
              (model_name settings) st1)
    as (_ & evs & _ & _ & Htr & _).
  destruct (handle_response svc settings fuel initial_response _ st1)
    as [[[t|]|e0|] s]; cbn [fst snd] in Htr.
  1: destruct (sanitize_model_response svc _ _ t).
  all: eexists; (split; [|right; exact Hpass]).
  all: apply Hext; simpl; rewrite Htr; unfold st1; simpl;
       rewrite <- !app_assoc; simpl; reflexivity.
Qed.

(** X13. The backend is called only on a prompt that passed: when a
    run of [generate] has called the backend, the screening of the
    prompt came first and answered with a verdict other than
    MATCH_FOUND. *)
Theorem backend_called_only_after_prompt_passed svc settings fuel user_query st :
  backend_calls (new_events st (snd (generate svc settings fuel user_query st)))
  <> [] ->
  (exists rest,
     new_events st (snd (generate svc settings fuel user_query st))
     = prompt_screening settings st user_query :: rest)
  /\ exists verdict,
       sanitize_user_prompt svc
         (model_armor_endpoint st (model_armor_location settings))
         (prompt_template settings) user_query = Returns verdict
       /\ verdict <> MATCH_FOUND.
Proof.
  destruct (generate_trace_opens_with_prompt_screening svc settings fuel
              user_query st) as (rest & Htr & Hrest).
  rewrite Htr. intros Hcalls. split; [by exists rest|].
  destruct Hrest as [-> | (verdict & Hs & Hv)]; [by destruct Hcalls|].
  exists verdict. split; [exact Hs|]. intros ->. discriminate.
Qed.

Lemma backend_called_only_after_prompt_passed_witness :
  (exists rest,
     new_events idle_state
       (snd (generate scenario_C sample_settings 3 denver_query idle_state))
     = prompt_screening sample_settings idle_state denver_query :: rest)
  /\ exists verdict,
       sanitize_user_prompt scenario_C
         (model_armor_endpoint idle_state (model_armor_location sample_settings))
         (prompt_template sample_settings) denver_query = Returns verdict
       /\ verdict <> MATCH_FOUND.
Proof.
  apply (backend_called_only_after_prompt_passed scenario_C sample_settings 3
           denver_query idle_state).
  vm_compute. discriminate.
Defined.

(** The trace of a run of [generate]: the screening of the prompt
    alone, or that screening, the opening call, the events of the
    response loop and at most the screening of an answer. *)
Lemma generate_trace_shape svc settings fuel user_query st :
  new_events st (snd (generate svc settings fuel user_query st))
  = [prompt_screening settings st user_query]
  \/ exists loop_evs last,
       new_events st (snd (generate svc settings fuel user_query st))
       = prompt_screening settings st user_query
         :: initial_call settings user_query :: loop_evs ++ last
       /\ (loop_evs = []
           \/ exists initial_response,
                loop_evs =
                new_events (loop_start_state settings st user_query)
                  (snd (handle_response svc settings fuel initial_response
                          (model_name settings)
                          (loop_start_state settings st user_query))))
       /\ (last = []
           \/ exists final_text,
                last = [response_screening settings st final_text]).
Proof.
  rewrite generate_eq. cbv zeta.
  set (st0 := with_client _ _).
  assert (Hst0 : st_trace st0 = st_trace st)
    by (unfold st0; by rewrite with_client_trace).
  assert (Hext : forall s extra,
            st_trace s = st_trace st0
              ++ prompt_screening settings st user_query :: extra ->
            new_events st s
            = prompt_screening settings st user_query :: extra).
  { intros s extra Hs. apply new_events_app. by rewrite Hs, Hst0. }
  destruct (sanitize_user_prompt svc _ _ _) as [verdict|e0];
    [|left; cbn [snd]; by apply Hext].
  destruct (is_match_found verdict); [left; cbn [snd]; by apply Hext|].
  right.
  destruct (generate_content svc _ _ _) as [initial_response|e0].
  2: { exists [], []. split_and!; [|by left|by left].
       cbn [snd]. apply Hext. simpl. by rewrite <- app_assoc. }
  rewrite with_trace_with_trace. simpl app.
  change (with_trace st0 _) with (loop_start_state settings st user_query).
  set (st1 := loop_start_state settings st user_query).
  destruct (handle_response_post svc settings fuel initial_response
              (model_name settings) st1)
    as (_ & evs & _ & _ & Htr & _).
  destruct (handle_response svc settings fuel initial_response _ st1)
    as [[[t|]|e0|] s] eqn:E; cbn [fst snd] in Htr |- *.
  1: destruct (sanitize_model_response svc _ _ t).
  1,2: exists (new_events st1 s), [response_screening settings st t].
  3,4,5: exists (new_events st1 s), [].
  all: split_and!;
         [|right; exists initial_response; by rewrite E
          |first [by left | right; by exists t]].
  all: cbn [snd]; apply Hext; simpl; rewrite (new_events_app _ _ _ Htr), Htr;
       unfold st1, loop_start_state; simpl; fold st0;
       rewrite <- ?app_assoc; simpl; by rewrite ?app_nil_r.
Qed.

(** X14. When the prompt passes and the backend answers the opening
    call with a text that is not empty and no function call, the
    request makes three calls, the screening of the prompt, the
    opening call and the screening of that text, and returns the text
    if its verdict is not MATCH_FOUND and [None] if it is, or if the
    screening raises. *)
Theorem direct_answer_is_screened_once svc settings fuel user_query st verdict
    initial_response final_text :
  sanitize_user_prompt svc
    (model_armor_endpoint st (model_armor_location settings))
    (prompt_template settings) user_query = Returns verdict ->
  verdict <> MATCH_FOUND ->
  generate_content svc (model_name settings) [user_turn user_query]
    (generate_content_config settings) = Returns initial_response ->
  find_function_call_part initial_response = None ->
  response_text initial_response = Some final_text ->
  final_text <> "" ->
  new_events st (snd (generate svc settings fuel user_query st))
  = [prompt_screening settings st user_query;
     initial_call settings user_query;
     response_screening settings st final_text]
  /\ fst (generate svc settings fuel user_query st)
     = match sanitize_model_response svc
               (model_armor_endpoint st (model_armor_location settings))
               (response_template settings) final_text with
       | Returns MATCH_FOUND => Ok None
       | Returns _ => Ok (Some final_text)
       | Throws _ => Ok None
       end.
Proof.
  intros Hp Hv Hb Hf Ht Hne.
  rewrite generate_eq. cbv zeta. rewrite Hp.
  assert (Hm : is_match_found verdict = false) by (by destruct verdict).
  rewrite Hm, Hb, (handle_response_final _ _ _ _ _ _ Hf), Ht. simpl.
  destruct (String.eqb_spec final_text "") as [->|_]; [done|]. simpl.
  assert (Htr : forall r : Outcome (option string),
    new_events st
      (snd (r, with_trace
                 (with_trace
                    (with_trace
                       (with_client (request_state settings st user_query)
                          (model_armor_location settings))
                       [prompt_screening settings st user_query])
                    [initial_call settings user_query])
                 [response_screening settings st final_text]))
    = [prompt_screening settings st user_query;
       initial_call settings user_query;
       response_screening settings st final_text]).
  { intros r. apply new_events_app. simpl. rewrite with_client_trace. simpl.
    by rewrite <- !app_assoc. }
  destruct (sanitize_model_response svc _ _ _) as [[]|e0]; by rewrite Htr.
Qed.

Lemma direct_answer_is_screened_once_witness :
  new_events idle_state
    (snd (generate scenario_B sample_settings 0 denver_query idle_state))
  = [prompt_screening sample_settings idle_state denver_query;
     initial_call sample_settings denver_query;
     response_screening sample_settings idle_state "Sunny, 72F"]
  /\ fst (generate scenario_B sample_settings 0 denver_query idle_state)
     = match sanitize_model_response scenario_B
               (model_armor_endpoint idle_state
                  (model_armor_location sample_settings))
               (response_template sample_settings) "Sunny, 72F" with
       | Returns MATCH_FOUND => Ok None
       | Returns _ => Ok (Some "Sunny, 72F")
       | Throws _ => Ok None
       end.
Proof.
  apply (direct_answer_is_screened_once scenario_B sample_settings 0
           denver_query idle_state NO_MATCH_FOUND (text_response "Sunny, 72F")
           "Sunny, 72F").
  - reflexivity.
  - discriminate.
  - reflexivity.
  - reflexivity.
  - reflexivity.
  - discriminate.
Defined.

(** X15. The k-th call of [generate] to the backend (from 0) names the
    model of the settings and carries the configuration of the request
    with its tools less the first k, the sampling and safety settings
    being those of the opening call: the retrieval tool is offered on
    the opening call only and no tool from the third call on.  Its
    history has 1 + 2k turns. *)
Theorem generate_backend_call_config svc settings fuel user_query st (k : nat)
    m cs cfg :
  backend_calls (new_events st (snd (generate svc settings fuel user_query st)))
    !! k = Some (m, cs, cfg) ->
  m = model_name settings
  /\ cfg = with_tools (generate_content_config settings)
             (drop k [retrieval_tool settings; x_weather_tool])
  /\ length cs = (1 + 2 * k)%nat.
Proof.
  destruct (generate_trace_shape svc settings fuel user_query st)
    as [-> | (loop_evs & last & -> & Hloop & Hlast)]; [by destruct k|].
  assert (Hb : backend_calls (loop_evs ++ last) = backend_calls loop_evs).
  { rewrite backend_calls_app.
    destruct Hlast as [-> | [t ->]]; simpl; by rewrite app_nil_r. }
  simpl. rewrite Hb. destruct k as [|k]; simpl.
  { intros [= <- <- <-]. by split_and!. }
  destruct Hloop as [-> | [initial_response ->]]; [by destruct k|].
  set (st1 := loop_start_state settings st user_query).
  destruct (handle_response_shape svc settings fuel initial_response
              (model_name settings) st1)
    as (_ & evs & _ & Htr & _ & _ & _ & _ & _ & Hcalls).
  destruct (handle_response_post svc settings fuel initial_response
              (model_name settings) st1)
    as (_ & evs' & _ & _ & Htr' & _ & _ & _ & Hcalls').
  rewrite (new_events_app _ _ _ Htr). intros Hk.
  destruct (Hcalls k m cs cfg Hk) as (-> & Hlen).
  rewrite Htr in Htr'. apply app_inv_head in Htr'. subst evs'.
  destruct (Hcalls' k m cs _ Hk) as (-> & _).
  unfold st1, loop_start_state in Hlen |- *. simpl in Hlen |- *.
  rewrite with_client_contents in Hlen. rewrite with_client_config.
  simpl in Hlen |- *. split_and!; [reflexivity|reflexivity|lia].
Qed.

Lemma generate_backend_call_config_witness :
  "gemini-2.5-pro" = model_name sample_settings
  /\ second_round_config
     = with_tools (generate_content_config sample_settings)
         (drop 1 [retrieval_tool sample_settings; x_weather_tool])
  /\ length
       [user_turn denver_query;
        sanitized_model_turn denver_call (Some "abc");
        tool_turn (weather_result_part (Some "abc")
                     (Some (forecast_text denver_period)))]
     = (1 + 2 * 1)%nat.
Proof.
  apply (generate_backend_call_config scenario_C sample_settings 3 denver_query
           idle_state 1 "gemini-2.5-pro"
           [user_turn denver_query;
            sanitized_model_turn denver_call (Some "abc");
            tool_turn (weather_result_part (Some "abc")
                         (Some (forecast_text denver_period)))]
           second_round_config).
  vm_compute. reflexivity.
Defined.

(** X16. A request calls Model Armor at most twice: the screening of
    the prompt opens the trace, the screening of an answer, if there
    is one, closes it, and no call in between is a screening. *)
Theorem generate_screens_at_most_twice svc settings fuel user_query st :
  exists middle last,
    new_events st (snd (generate svc settings fuel user_query st))
    = prompt_screening settings st user_query :: middle ++ last
    /\ Forall (fun ev => is_screening_call ev = false) middle
    /\ (last = []
        \/ exists final_text,
             last = [response_screening settings st final_text]).
Proof.
  destruct (generate_trace_shape svc settings fuel user_query st)
    as [-> | (loop_evs & last & -> & Hloop & Hlast)];
    [by exists [], []; split_and!; [|constructor|left]|].
  exists (initial_call settings user_query :: loop_evs), last.
  split_and!; [reflexivity| |exact Hlast].
  constructor; [reflexivity|].
  destruct Hloop as [-> | [initial_response ->]]; [constructor|].
  destruct (handle_response_shape svc settings fuel initial_response
              (model_name settings) (loop_start_state settings st user_query))
    as (_ & evs & _ & Htr & _ & _ & _ & Hscr & _).
  by rewrite (new_events_app _ _ _ Htr).
Qed.

(** ** The Model Armor client (model_armor.py) *)

(** X17. The Model Armor client is made once, for the location of the
    first screening, and kept: a later screening for another location
    still goes to the endpoint of the first, though the template it
    names is of the new location. *)
Theorem model_armor_client_keeps_first_endpoint svc prompt project loc template
    st model_response project' loc' template' :
  st_model_armor_client st = None ->
  st_model_armor_client
    (snd (check_prompt_with_model_armor svc prompt project loc template st))
  = Some {| api_endpoint := "modelarmor." +:+ loc +:+ ".rep.googleapis.com" |}
  /\ new_events
       (snd (check_prompt_with_model_armor svc prompt project loc template st))
       (snd (check_response_with_model_armor svc model_response project' loc'
               template'
               (snd (check_prompt_with_model_armor svc prompt project loc
                       template st))))
     = [EvSanitizeModelResponse
          ("modelarmor." +:+ loc +:+ ".rep.googleapis.com")
          (template_path project' loc' template') model_response]
  /\ st_model_armor_client
       (snd (check_response_with_model_armor svc model_response project' loc'
               template'
               (snd (check_prompt_with_model_armor svc prompt project loc
                       template st))))
     = Some {| api_endpoint := "modelarmor." +:+ loc +:+ ".rep.googleapis.com" |}.
Proof.
  intros Hnone.
  rewrite check_prompt_with_model_armor_eq. cbv zeta.
  set (st1 := with_trace (with_client st loc) _).
  assert (Hcl : st_model_armor_client st1
                = Some {| api_endpoint :=
                            "modelarmor." +:+ loc +:+ ".rep.googleapis.com" |}).
  { unfold st1, with_client. by rewrite Hnone. }
  assert (Hst1 : forall r : Outcome bool, snd (r, st1) = st1) by done.
  destruct (sanitize_user_prompt svc _ _ _) as [verdict|e0]; rewrite Hst1.
  all: assert (Hep : model_armor_endpoint st1 loc'
                     = "modelarmor." +:+ loc +:+ ".rep.googleapis.com")
         by (unfold model_armor_endpoint; by rewrite Hcl).
  all: rewrite !check_response_with_model_armor_eq; cbv zeta.
  all: rewrite !Hep, !(with_client_idle st1 loc')
         by (rewrite Hcl; by eexists).
  all: destruct (sanitize_model_response svc _ _ _) as [verdict'|e1];
         cbn [snd]; rewrite new_events_with_trace;
         split_and!; first [reflexivity | exact Hcl].
Qed.

Lemma model_armor_client_keeps_first_endpoint_witness :
  st_model_armor_client
    (snd (check_prompt_with_model_armor scenario_C denver_query "snow-project"
            "us" "lab-five-query-template" idle_state))
  = Some {| api_endpoint := "modelarmor." +:+ "us" +:+ ".rep.googleapis.com" |}
  /\ new_events
       (snd (check_prompt_with_model_armor scenario_C denver_query
               "snow-project" "us" "lab-five-query-template" idle_state))
       (snd (check_response_with_model_armor scenario_C clear_skies
               "snow-project" "europe-west4" "ma-response-filter"
               (snd (check_prompt_with_model_armor scenario_C denver_query
                       "snow-project" "us" "lab-five-query-template"
                       idle_state))))
     = [EvSanitizeModelResponse
          ("modelarmor." +:+ "us" +:+ ".rep.googleapis.com")
          (template_path "snow-project" "europe-west4" "ma-response-filter")
          clear_skies]
  /\ st_model_armor_client
       (snd (check_response_with_model_armor scenario_C clear_skies
               "snow-project" "europe-west4" "ma-response-filter"
               (snd (check_prompt_with_model_armor scenario_C denver_query
                       "snow-project" "us" "lab-five-query-template"
                       idle_state))))
     = Some {| api_endpoint := "modelarmor." +:+ "us" +:+ ".rep.googleapis.com" |}.
Proof.
  apply (model_armor_client_keeps_first_endpoint scenario_C denver_query
           "snow-project" "us" "lab-five-query-template" idle_state
           clear_skies "snow-project" "europe-west4" "ma-response-filter").
  reflexivity.
Defined.

(** ** The chat endpoint over [generate] (routers/chat.py) *)

Lemma chat_eq svc settings fuel request st :
  chat svc settings fuel request st =
  match generate svc settings fuel (message request) st with
  | (Ok (Some t), st') =>
      (Ok {| response := Some t; blocked := false; blocked_reason := None |},
       st')
  | (Ok None, st') => (Ok blocked_response, st')
  | (Raise e, st') =>
      (Raise (Exn (HTTPException 500)
                ("An error occurred while processing your request: "
                 +:+ exn_str e)),
       st')
  | (OutOfFuel, st') => (OutOfFuel, st')
  end.
Proof.
  unfold chat. unfold_monad.
  by destruct (generate svc settings fuel (message request) st)
    as [[[t|]|e|] st'].
Qed.

(** X18. The endpoint answers with a server error exactly when the
    call that screens the prompt raises; the error has status 500 and
    its detail ends with the text of that exception.  No failure of
    the backend, of the weather tool or of the screening of the answer
    becomes a server error. *)
Theorem chat_server_error_iff_prompt_screening_raises svc settings fuel request
    st err :
  fst (chat svc settings fuel request st) = Raise err
  <-> exists e,
        sanitize_user_prompt svc
          (model_armor_endpoint st (model_armor_location settings))
          (prompt_template settings) (message request) = Throws e
        /\ err = Exn (HTTPException 500)
                   ("An error occurred while processing your request: "
                    +:+ exn_str e).
Proof.
  rewrite chat_eq.
  destruct (generate svc settings fuel (message request) st)
    as [[[t|]|e|] st'] eqn:E; simpl.
  1,2,4: split; [discriminate|].
  1,2,3: intros (e & He & _);
         apply (generate_prompt_screening_raises svc settings fuel) in He;
         rewrite E in He; discriminate.
  split.
  - intros [= <-]. exists e. split; [|reflexivity].
    destruct (sanitize_user_prompt svc _ _ _) as [verdict|e0] eqn:Hs.
    + destruct (generate_catches_after_prompt_screening svc settings fuel
                  (message request) st verdict e Hs).
      by rewrite E.
    + apply (generate_prompt_screening_raises svc settings fuel) in Hs.
      rewrite E in Hs. simpl in Hs. by injection Hs as ->.
  - intros (e' & He & ->).
    apply (generate_prompt_screening_raises svc settings fuel) in He.
    rewrite E in He. simpl in He. by injection He as ->.
Qed.

(** X19. A response of the endpoint that is not blocked carries a text
    that is not empty and that Model Armor has passed: its screening
    returned a verdict other than MATCH_FOUND. *)
Theorem chat_unblocked_text_passed_screening svc settings fuel request st r :
  fst (chat svc settings fuel request st) = Ok r ->
  blocked r = false ->
  exists t verdict,
    r = {| response := Some t; blocked := false; blocked_reason := None |}
    /\ t <> ""
    /\ sanitize_model_response svc
         (model_armor_endpoint st (model_armor_location settings))
         (response_template settings) t = Returns verdict
    /\ verdict <> MATCH_FOUND.
Proof.
  rewrite chat_eq.
  destruct (generate svc settings fuel (message request) st)
    as [[[t|]|e|] st'] eqn:E; simpl; try discriminate.
  2: { intros [= <-]. discriminate. }
  intros [= <-] _.
  destruct (generate_Some_response_verdict svc settings fuel (message request)
              st t) as (Hne & verdict & Hs & Hv); [by rewrite E|].
  by exists t, verdict.
Qed.

Lemma chat_unblocked_text_passed_screening_witness :
  exists t verdict,
    {| response := Some clear_skies; blocked := false; blocked_reason := None |}
    = {| response := Some t; blocked := false; blocked_reason := None |}
    /\ t <> ""
    /\ sanitize_model_response scenario_C
         (model_armor_endpoint idle_state (model_armor_location sample_settings))
         (response_template sample_settings) t = Returns verdict
    /\ verdict <> MATCH_FOUND.
Proof.
  apply (chat_unblocked_text_passed_screening scenario_C sample_settings 3
           denver_request idle_state
           {| response := Some clear_skies; blocked := false;
              blocked_reason := None |}).
  - vm_compute. reflexivity.
  - reflexivity.
Defined.

(** ** Where the answer of the loop comes from (core.py) *)

(** X20. A text that the response loop returns is the text of a reply
    that holds no function call: of the response it was given, if the
    loop called the backend not at all, and of the backend's reply to
    the last call otherwise.  A text beside a function call is never
    the answer. *)
Theorem loop_answer_is_text_of_last_reply svc settings fuel response model st t :
  fst (handle_response svc settings fuel response model st) = Ok (Some t) ->
  (find_function_call_part response = None
   /\ response_text response = Some t
   /\ backend_calls
        (new_events st (snd (handle_response svc settings fuel response model st)))
      = [])
  \/ exists m cs cfg reply,
       last (backend_calls
               (new_events st
                  (snd (handle_response svc settings fuel response model st))))
       = Some (m, cs, cfg)
       /\ generate_content svc m cs cfg = Returns reply
       /\ find_function_call_part reply = None
       /\ response_text reply = Some t.
Proof.
  revert response model st t.
  induction fuel as [|fuel IH]; intros response model st t.
  all: destruct (find_function_call_part response) as [part|] eqn:Hf.
  2,4: rewrite handle_response_final by exact Hf; simpl;
       destruct (truthy (response_text response)); [|discriminate];
       intros [= Ht]; left; by rewrite new_events_same.
  all: destruct (find_function_call_part_Some _ _ Hf) as [fc Hc].
  all: destruct (tool_result_part_returns svc settings fc (fc_id fc) st)
         as (rp & evs_t & Ht & Hb & _).
  all: destruct rp as [rp|];
         [|rewrite (handle_response_no_result _ _ _ _ _ _ _ _ _ Hf Hc Ht);
           discriminate].
  all: rewrite (handle_response_round _ _ _ _ _ _ _ _ _ _ Hf Hc Ht); cbv zeta.
  all: set (st2 := next_round_state _ _ _).
  all: set (st3 := with_trace st2 _).
  all: destruct (generate_content svc model _ _) as [next_response|e] eqn:Hg;
         [|discriminate].
  1: discriminate.
  destruct (handle_response_post svc settings fuel next_response model st3)
    as (_ & evs & _ & _ & Htr & _).
  specialize (IH next_response model st3 t).
  destruct (handle_response svc settings fuel next_response model st3)
    as [[r|e|] s] eqn:E; cbn [fst snd] in IH, Htr |- *; try discriminate.
  intros Hr. right.
  assert (Hall : new_events st s = evs_t ++ [next_round_call model st2] ++ evs).
  { apply new_events_app. rewrite Htr. unfold st3, st2. simpl.
    by rewrite <- !app_assoc. }
  rewrite Hall, !backend_calls_app, Hb. simpl.
  rewrite (new_events_app _ _ _ Htr) in IH.
  destruct (IH Hr) as [(Hfn & Htext & Hnone) | (m & cs & cfg & reply & Hlast & H)].
  - rewrite Hnone. simpl.
    exists model, (st_contents st2), (st_config st2), next_response.
    by split_and!.
  - exists m, cs, cfg, reply. split; [|exact H].
    destruct (backend_calls evs) as [|c calls]; [discriminate|].
    by rewrite last_cons, Hlast.
Qed.

Lemma loop_answer_is_text_of_last_reply_witness :
  (find_function_call_part (response_of_parts [raw_denver_part] None) = None
   /\ response_text (response_of_parts [raw_denver_part] None) = Some clear_skies
   /\ backend_calls
        (new_events denver_state
           (snd (handle_response scenario_C sample_settings 3
                   (response_of_parts [raw_denver_part] None) "gemini-2.5-pro"
                   denver_state)))
      = [])
  \/ exists m cs cfg reply,
       last (backend_calls
               (new_events denver_state
                  (snd (handle_response scenario_C sample_settings 3
                          (response_of_parts [raw_denver_part] None)
                          "gemini-2.5-pro" denver_state))))
       = Some (m, cs, cfg)
       /\ generate_content scenario_C m cs cfg = Returns reply
       /\ find_function_call_part reply = None
       /\ response_text reply = Some clear_skies.
Proof.
  apply (loop_answer_is_text_of_last_reply scenario_C sample_settings 3
           (response_of_parts [raw_denver_part] None) "gemini-2.5-pro"
           denver_state clear_skies).
  vm_compute. reflexivity.
Defined.
